(** * xfrpc: SOCKS5 relay engine of [proxy_tcp.c]

    A shallow embedding of [is_socks5], [parse_socks5_addr],
    [socks5_proxy_connect], [handle_socks5] and [tcp_proxy_c2s_cb], with the
    C memory objects they touch (the stack scratch buffers, the
    [struct socks5_addr] fields, the ring buffer) and the calls they make
    into libevent and the tunnel multiplexer recorded as a trace. *)

From Stdlib Require Import String Strings.Byte.
From Stdlib Require Import List ZArith Lia Bool.
Import ListNotations.

Open Scope Z_scope.

(** ** Bytes and C memory objects *)

Definition bytes := list byte.

(** The value of a [uint8_t] once promoted to [int]. *)
Definition u8 (b : byte) : Z := Z.of_nat (Byte.to_nat b).

(** Conversion of an [int] to [uint32_t] (the return type of the handlers). *)
Definition to_uint32 (z : Z) : Z := z mod 2 ^ 32.

(** What can go wrong when the C code runs: the abnormal terminations and
    the accesses that leave the object they were aimed at. *)
Inductive fault : Type :=
| AssertFailed            (* an [assert] of the source is violated *)
| RingUnderflow           (* more bytes popped than the ring buffer holds *)
| ScratchOverflow         (* access outside a local [buf] array *)
| AddrOverflow.           (* access outside [addr->addr] *)

Inductive exec (A : Type) : Type :=
| Done (a : A)
| Crash (f : fault).

Arguments Done {A} a.
Arguments Crash {A} f.

Definition bind {A B} (c : exec A) (k : A -> exec B) : exec B :=
  match c with
  | Done a => k a
  | Crash f => Crash f
  end.

Declare Scope exec_scope.
Delimit Scope exec_scope with exec.
Notation "x <- c ;; k" := (bind c (fun x => k))
  (at level 61, c at next level, right associativity) : exec_scope.
Notation "' pat <- c ;; k" := (bind c (fun x => match x with pat => k end))
  (at level 61, pat pattern, c at next level, right associativity) : exec_scope.
Open Scope exec_scope.

Definition c_assert (b : bool) : exec unit :=
  if b then Done tt else Crash AssertFailed.

(** [memcpy(dst + off, src, |src|)] into an array object [dst] of fixed
    size; [f] names the object for the case the copy leaves it. *)
Definition store (f : fault) (dst : bytes) (off : nat) (src : bytes) : exec bytes :=
  if (off + length src <=? length dst)%nat
  then Done (firstn off dst ++ src ++ skipn (off + length src) dst)
  else Crash f.

(** The [n] bytes at [src + off] of an array object [src]. *)
Definition load (f : fault) (src : bytes) (off n : nat) : exec bytes :=
  if (off + n <=? length src)%nat
  then Done (firstn n (skipn off src))
  else Crash f.

(** [buf[i]] for an index inside the array. *)
Definition at_index (buf : bytes) (i : nat) : byte := nth i buf x00.

(** ** The ring buffer collaborator *)

(** The bytes staged for parsing, oldest first. *)
Definition ring_buffer := bytes.

(** Modelled from the spec: [rx_ring_buffer_pop] lives in the multiplexer
    (tcpmux.c), which is not among the sources. The spec asks of it only to
    "consume N bytes from the front of a FIFO byte buffer of known length";
    asking for more than the buffer holds is outside that contract. *)
Definition rx_ring_buffer_pop (rb : ring_buffer) (n : nat) : exec (bytes * ring_buffer) :=
  if (n <=? length rb)%nat
  then Done (firstn n rb, skipn n rb)
  else Crash RingUnderflow.

(** [rx_ring_buffer_pop(rb, buf + off, n)] with [buf] a local array. *)
Definition pop_into (rb : ring_buffer) (buf : bytes) (off n : nat)
  : exec (bytes * ring_buffer) :=
  '(got, rb') <- rx_ring_buffer_pop rb n ;;
  buf' <- store ScratchOverflow buf off got ;;
  Done (buf', rb').

(** ** is_socks5 *)

Definition is_socks5 (buf : bytes) (len : Z) : bool :=
  if len <? 3 then false
  else if negb (Byte.eqb (at_index buf 0) x05) then false
  else if negb (Byte.eqb (at_index buf 1) x01) then false
  else if negb (Byte.eqb (at_index buf 2) x00) then false
  else true.

(** ** struct socks5_addr and parse_socks5_addr *)

(** The fields of [struct socks5_addr] the code uses. [port] is kept as the
    two bytes the [uint16_t] occupies in memory: [memcpy] puts the wire
    bytes there unchanged, which is network byte order. *)
Record socks5_addr : Type := mk_socks5_addr {
  addr : bytes;
  port : bytes;
  type : byte
}.

(** The [switch (addr->type)] of the parser and of the connector. *)
Definition switch_type {A} (t : byte) (ipv4 ipv6 domain other : A) : A :=
  match t with
  | x01 => ipv4
  | x04 => ipv6
  | x03 => domain
  | _ => other
  end.

(** ** The world outside: libevent, the multiplexer, the log *)

(** A [struct bufferevent *] that is not NULL, by identity. *)
Definition bufferevent := nat.

Inductive log_level : Type := LOG_ERR | LOG_INFO | LOG_DEBUG.
Inductive ev_flag : Type := EV_READ | EV_WRITE.
Inductive family : Type := AF_INET | AF_INET6.

(** The calls that leave proxy_tcp.c, in the order they are made. *)
Inductive call : Type :=
| Debug (level : log_level) (fmt : string)
| TmuxStreamWrite (ctl : option bufferevent) (data : bytes) (stream_id : Z)
| TxRingBufferWrite (bev : bufferevent) (data : bytes)
| BuffereventSocketNew (bev : bufferevent)
| BuffereventSocketConnect (bev : bufferevent) (af : family) (ip port : bytes)
| BuffereventSocketConnectHostname (bev : bufferevent) (af : family)
    (host : bytes) (host_port : Z)
| BuffereventSetcb (bev : bufferevent)
| BuffereventEnable (bev : bufferevent) (flags : list ev_flag)
| BuffereventDisable (bev : bufferevent) (flags : list ev_flag)
| BuffereventFree (bev : bufferevent)
| EvbufferAddBuffer (dst : option bufferevent) (data : bytes).

Definition world := list call.

(** What the environment answers to the calls whose result the code tests. *)
Record oracle : Type := mk_oracle {
  socket_new_result : option bufferevent; (* bufferevent_socket_new *)
  connect_result : Z;      (* bufferevent_socket_connect[_hostname] *)
  tmux_written : Z;        (* tmux_stream_write, a uint32_t *)
  tcp_mux : bool;          (* get_common_config()->tcp_mux *)
  calloc_ok : bool         (* calloc returned non-NULL *)
}.

(** Code that runs against the world: it extends the trace or crashes. *)
Definition io (A : Type) : Type := world -> exec (A * world).

Definition io_ret {A} (a : A) : io A := fun w => Done (a, w).

Definition io_bind {A B} (c : io A) (k : A -> io B) : io B :=
  fun w => match c w with
           | Done (a, w') => k a w'
           | Crash f => Crash f
           end.

Definition lift {A} (c : exec A) : io A :=
  fun w => match c with
           | Done a => Done (a, w)
           | Crash f => Crash f
           end.

Definition emit (c : call) : io unit := fun w => Done (tt, w ++ [c]).

Declare Scope io_scope.
Delimit Scope io_scope with io.
Notation "x <- c ;; k" := (io_bind c (fun x => k))
  (at level 61, c at next level, right associativity) : io_scope.
Notation "' pat <- c ;; k" := (io_bind c (fun x => match x with pat => k end))
  (at level 61, pat pattern, c at next level, right associativity) : io_scope.
Notation "c ;;; k" := (io_bind c (fun _ => k))
  (at level 61, right associativity) : io_scope.

Definition debug (level : log_level) (fmt : string) : io unit :=
  emit (Debug level fmt).

(** ** struct proxy_client *)

Inductive socks5_state : Type :=
| SOCKS5_INIT
| SOCKS5_HANDSHAKE
| SOCKS5_CONNECT
| SOCKS5_ESTABLISHED.

Definition state_eqb (a b : socks5_state) : bool :=
  match a, b with
  | SOCKS5_INIT, SOCKS5_INIT
  | SOCKS5_HANDSHAKE, SOCKS5_HANDSHAKE
  | SOCKS5_CONNECT, SOCKS5_CONNECT
  | SOCKS5_ESTABLISHED, SOCKS5_ESTABLISHED => true
  | _, _ => false
  end.

(** The fields of [struct proxy_client] that proxy_tcp.c reads or writes;
    a pointer field is [None] when it is NULL. *)
Record proxy_client : Type := mk_proxy_client {
  ctl_bev : option bufferevent;
  local_proxy_bev : option bufferevent;
  state : socks5_state;
  remote_addr : socks5_addr;
  stream_id : Z
}.

Definition set_state (c : proxy_client) (s : socks5_state) : proxy_client :=
  mk_proxy_client (ctl_bev c) (local_proxy_bev c) s (remote_addr c) (stream_id c).

Definition set_remote_addr (c : proxy_client) (a : socks5_addr) : proxy_client :=
  mk_proxy_client (ctl_bev c) (local_proxy_bev c) (state c) a (stream_id c).

Definition set_local_proxy_bev (c : proxy_client) (b : option bufferevent)
  : proxy_client :=
  mk_proxy_client (ctl_bev c) b (state c) (remote_addr c) (stream_id c).

(** [tmux_stream_write(ctl, data, len, &client->stream)]: the multiplexer
    is handed the bytes and answers how many it took. *)
Definition tmux_stream_write (o : oracle) (ctl : option bufferevent)
    (data : bytes) (stream : Z) : io Z :=
  (emit (TmuxStreamWrite ctl data stream) ;;;
   io_ret (to_uint32 (tmux_written o)))%io.

(** Modelled from the spec: [tx_ring_buffer_write] lives in the multiplexer
    (tcpmux.c), which is not among the sources. In the established state
    "all bytes are opaque payload; hand them to ForwardingBridge verbatim",
    so the [len] bytes at the front of the ring buffer leave it for the
    backend connection. *)
Definition tx_ring_buffer_write (bev : bufferevent) (rb : ring_buffer) (len : Z)
  : io ring_buffer :=
  ('(data, rb') <- lift (rx_ring_buffer_pop rb (Z.to_nat len)) ;;
   emit (TxRingBufferWrite bev data) ;;;
   io_ret rb')%io.

(** The string a [char *] aimed at an array denotes: the bytes before the
    first NUL, if the array holds one. *)
Fixpoint c_string (a : bytes) : option bytes :=
  match a with
  | [] => None
  | b :: rest =>
      if Byte.eqb b x00 then Some []
      else option_map (cons b) (c_string rest)
  end.

(** [ntohs] of a [uint16_t] given by its bytes in memory. *)
Definition ntohs (p : bytes) : Z := 256 * u8 (at_index p 0) + u8 (at_index p 1).

Section Socks5.

(** [sizeof(addr->addr)]: the struct is declared in proxy.h, which is not
    among the sources, so the capacity of the address field stays a
    parameter of the development. *)
Variable ADDR_SIZE : nat.

(** [memset(addr, 0, sizeof(struct socks5_addr))]. *)
Definition zero_addr : socks5_addr :=
  mk_socks5_addr (repeat x00 ADDR_SIZE) [x00; x00] x00.

(** The local [uint8_t buf[256] = {0}]. *)
Definition scratch_size : nat := 256.

(** The result is [(return value, *offset, *addr, ring buffer afterwards)]. *)
Definition parse_socks5_addr (rb : ring_buffer) (len : Z)
  : exec (bool * Z * socks5_addr * ring_buffer) :=
  _ <- c_assert (0 <? len) ;;
  let a := zero_addr in
  let buf := repeat x00 scratch_size in
  '(buf, rb) <- pop_into rb buf 0 1 ;;
  let offset := 1 in
  let a := mk_socks5_addr (addr a) (port a) (at_index buf 0) in
  switch_type (type a)
    (* case 0x01 *)
    (if len <? 7 then Done (false, offset, a, rb) else
     '(buf, rb) <- pop_into rb buf 1 6 ;;
     src <- load ScratchOverflow buf 1 4 ;;
     dst <- store AddrOverflow (addr a) 0 src ;;
     p <- load ScratchOverflow buf 5 2 ;;
     Done (true, 7, mk_socks5_addr dst p (type a), rb))
    (* case 0x04 *)
    (if len <? 19 then Done (false, offset, a, rb) else
     '(buf, rb) <- pop_into rb buf 1 18 ;;
     src <- load ScratchOverflow buf 1 16 ;;
     dst <- store AddrOverflow (addr a) 0 src ;;
     p <- load ScratchOverflow buf 17 2 ;;
     Done (true, 19, mk_socks5_addr dst p (type a), rb))
    (* case 0x03 *)
    (if len <? 2 then Done (false, offset, a, rb) else
     '(buf, rb) <- pop_into rb buf 1 1 ;;
     let domain_len := at_index buf 1 in
     if len <? u8 domain_len + 4 then Done (false, offset, a, rb) else
     '(buf, rb) <- pop_into rb buf 2 (Byte.to_nat domain_len + 2) ;;
     src <- load ScratchOverflow buf 2 (Byte.to_nat domain_len) ;;
     dst <- store AddrOverflow (addr a) 0 src ;;
     p <- load ScratchOverflow buf (2 + Byte.to_nat domain_len) 2 ;;
     Done (true, u8 domain_len + 4, mk_socks5_addr dst p (type a), rb))
    (* default *)
    (Done (false, offset, a, rb)).


(** ** socks5_proxy_connect *)

(** The result is the configured bufferevent, [None] for NULL. *)
Definition socks5_proxy_connect (o : oracle) (a : socks5_addr)
  : io (option bufferevent) :=
  (match socket_new_result o with
   | None =>
       debug LOG_ERR "Failed to create bufferevent for SOCKS5 proxy" ;;;
       io_ret None
   | Some bev =>
       emit (BuffereventSocketNew bev) ;;;
       let finish (connect_result : Z) : io (option bufferevent) :=
         if connect_result <? 0 then
           debug LOG_ERR "Failed to connect SOCKS5 proxy (type %d)" ;;;
           emit (BuffereventFree bev) ;;;
           io_ret None
         else
           emit (BuffereventSetcb bev) ;;;
           emit (BuffereventEnable bev [EV_READ; EV_WRITE]) ;;;
           io_ret (Some bev)
       in
       switch_type (type a)
         (* case 0x01 *)
         (ip <- lift (load AddrOverflow (addr a) 0 4) ;;
          debug LOG_DEBUG "SOCKS5 connecting to IPv4: %s:%d" ;;;
          emit (BuffereventSocketConnect bev AF_INET ip (port a)) ;;;
          finish (connect_result o))
         (* case 0x04 *)
         (ip <- lift (load AddrOverflow (addr a) 0 16) ;;
          emit (BuffereventSocketConnect bev AF_INET6 ip (port a)) ;;;
          finish (connect_result o))
         (* case 0x03 *)
         (host <- lift (match c_string (addr a) with
                        | Some h => Done h
                        | None => Crash AddrOverflow
                        end) ;;
          debug LOG_DEBUG "SOCKS5 connecting to domain: %s:%d" ;;;
          emit (BuffereventSocketConnectHostname bev AF_INET host (ntohs (port a))) ;;;
          finish (connect_result o))
         (* default *)
         (debug LOG_ERR "Invalid SOCKS5 address type: %d" ;;;
          emit (BuffereventFree bev) ;;;
          io_ret None)
   end)%io.

(** ** handle_socks5 *)

(** The result is [(return value, *client, ring buffer afterwards)]. *)
Definition handle_socks5 (o : oracle) (client : proxy_client)
    (rb : ring_buffer) (len : Z) : io (Z * proxy_client * ring_buffer) :=
  (let nret := 0 in
   if state_eqb (state client) SOCKS5_CONNECT then
     bev <- lift (match local_proxy_bev client with
                  | Some b => Done b
                  | None => Crash AssertFailed
                  end) ;;
     rb <- tx_ring_buffer_write bev rb len ;;
     io_ret (to_uint32 len, client, rb)
   else if state_eqb (state client) SOCKS5_INIT && (3 <=? len) then
     debug LOG_DEBUG "Processing SOCKS5 initial handshake, len: %d" ;;;
     let buf := [x00; x00; x00] in
     '(buf, rb) <- lift (pop_into rb buf 0 3) ;;
     if negb (Byte.eqb (at_index buf 0) x05)
        || negb (Byte.eqb (at_index buf 1) x01)
        || negb (Byte.eqb (at_index buf 2) x00)
     then
       debug LOG_ERR "Invalid SOCKS5 handshake" ;;;
       io_ret (nret, client, rb)
     else
       buf <- lift (store ScratchOverflow buf 1 [x00]) ;;
       _ <- tmux_stream_write o (ctl_bev client) buf (stream_id client) ;;
       let client := set_state client SOCKS5_HANDSHAKE in
       io_ret (3, client, rb)
   else if state_eqb (state client) SOCKS5_HANDSHAKE && (10 <=? len) then
     debug LOG_DEBUG "Processing SOCKS5 connection request, len: %d" ;;;
     let buf := [x00; x00; x00] in
     '(buf, rb) <- lift (pop_into rb buf 0 3) ;;
     if negb (is_socks5 buf 3) then
       debug LOG_ERR "Invalid SOCKS5 request format" ;;;
       io_ret (nret, client, rb)
     else
       '(ok, offset, a, rb) <- lift (parse_socks5_addr rb len) ;;
       let client := set_remote_addr client a in
       if negb ok then
         debug LOG_ERR "Failed to parse SOCKS5 address" ;;;
         io_ret (nret, client, rb)
       else
         bev <- socks5_proxy_connect o (remote_addr client) ;;
         let client := set_local_proxy_bev client bev in
         match local_proxy_bev client with
         | None =>
             debug LOG_ERR "Failed to establish proxy connection" ;;;
             io_ret (nret, client, rb)
         | Some _ =>
             _ <- lift (c_assert (len =? offset + 3)) ;;
             io_ret (to_uint32 len, client, rb)
         end
   else
     debug LOG_ERR "Invalid SOCKS5 protocol state" ;;;
     match local_proxy_bev client with
     | Some bev => emit (BuffereventFree bev)
     | None => io_ret tt
     end ;;;
     io_ret (nret, client, rb))%io.

End Socks5.

(** ** tcp_proxy_c2s_cb *)

(** [bufferevent_read(bev, buf, size)]: libevent removes up to [size] bytes
    from the front of the input buffer and returns how many it removed.
    The result is [(nr, buf, input buffer afterwards)]. *)
Definition bufferevent_read (src : bytes) (size : nat) : nat * bytes * bytes :=
  let nr := Nat.min size (length src) in
  (nr, firstn nr src, skipn nr src).

(** [ctx] is the [struct proxy_client *] libevent hands back, [None] for
    NULL; [src] is the input evbuffer of [bev]. The result is that input
    buffer once the callback has returned. *)
Definition tcp_proxy_c2s_cb (o : oracle) (bev : bufferevent)
    (ctx : option proxy_client) (src : bytes) : io bytes :=
  (let invalid :=
     debug LOG_ERR "Invalid client or control connection" ;;; io_ret src in
   match ctx with
   | None => invalid
   | Some client =>
   match ctl_bev client with
   | None => invalid
   | Some ctl =>
       let len := length src in
       if (len =? 0)%nat then
         debug LOG_DEBUG "No data to read from client" ;;;
         io_ret src
       else if negb (tcp_mux o) then
         emit (EvbufferAddBuffer (Some ctl) src) ;;;
         io_ret []
       else if negb (calloc_ok o) then
         debug LOG_ERR "Failed to allocate memory for buffer" ;;;
         io_ret src
       else
         let '(nr, buf, src) := bufferevent_read src len in
         if negb (nr =? len)%nat then
           debug LOG_ERR "Failed to read complete data: expected %zu, got %zu" ;;;
           io_ret src
         else
           written <- tmux_stream_write o (ctl_bev client) buf (stream_id client) ;;
           (if written <? Z.of_nat len then
              debug LOG_DEBUG "Stream %d: Partial write %u/%zu bytes, disabling read" ;;;
              emit (BuffereventDisable bev [EV_READ])
            else io_ret tt) ;;;
           io_ret src
   end
   end)%io.

(** ** The reactor's side of reading *)

Definition is_read (f : ev_flag) : bool :=
  match f with EV_READ => true | EV_WRITE => false end.

(** Whether [EV_READ] is on for [bev] after the calls of [w]: the last
    [bufferevent_enable] or [bufferevent_disable] naming [EV_READ] for it
    decides; libevent creates a bufferevent with reading off. *)
Definition read_enabled (bev : bufferevent) (w : world) : bool :=
  fold_left
    (fun on c =>
       match c with
       | BuffereventEnable b fl =>
           if (b =? bev)%nat && existsb is_read fl then true else on
       | BuffereventDisable b fl =>
           if (b =? bev)%nat && existsb is_read fl then false else on
       | _ => on
       end)
    w false.

(** libevent runs the read callback of a bufferevent only while [EV_READ]
    is enabled on it; otherwise the bytes stay in its input buffer. *)
Definition read_event (o : oracle) (bev : bufferevent)
    (ctx : option proxy_client) (src : bytes) : io bytes :=
  fun w => if read_enabled bev w then tcp_proxy_c2s_cb o bev ctx src w
           else Done (src, w).

(** A run of arrivals on [bev]: each brings more bytes (and its own answers
    from the environment) and is followed by a read event. *)
Fixpoint read_events (bev : bufferevent) (ctx : option proxy_client)
    (arrivals : list (oracle * bytes)) (src : bytes) : io bytes :=
  match arrivals with
  | [] => io_ret src
  | (o, more) :: rest =>
      (src <- read_event o bev ctx (src ++ more) ;;
       read_events bev ctx rest src)%io
  end.

(** The calls of a trace that offer bytes to the tunnel. *)
Definition tunnel_writes (w : world) : list bytes :=
  flat_map (fun c => match c with
                     | TmuxStreamWrite _ data _ => [data]
                     | _ => []
                     end) w.

(** The backend connections a trace releases, in order. *)
Definition freed (w : world) : list bufferevent :=
  flat_map (fun c => match c with
                     | BuffereventFree b => [b]
                     | _ => []
                     end) w.

(** ** Encoding a SocksAddress *)

(** The wire form of a decoded address, after the spec's table: the type
    tag, the address bytes (for a domain a length byte and that many
    bytes), and the two port bytes as they are stored. [consumed] is the
    count the decoder reported; the structure itself keeps no domain
    length. [None] for a tag that is no SocksAddress. *)
Definition encode_socks5_addr (a : socks5_addr) (consumed : Z) : option bytes :=
  switch_type (type a)
    (Some (type a :: firstn 4 (addr a) ++ port a))
    (Some (type a :: firstn 16 (addr a) ++ port a))
    (match Byte.of_nat (Z.to_nat (consumed - 4)) with
     | Some l => Some (type a :: l :: firstn (Z.to_nat (consumed - 4)) (addr a) ++ port a)
     | None => None
     end)
    None.

(** Decode the front of [wire] and encode what came out. *)
Definition decode_encode (ADDR_SIZE : nat) (wire : bytes) : option bytes :=
  match parse_socks5_addr ADDR_SIZE wire (Z.of_nat (length wire)) with
  | Done (true, offset, a, _) => encode_socks5_addr a offset
  | _ => None
  end.

(** The valid wire encodings of the spec's table. *)
Inductive valid_encoding : bytes -> Prop :=
| valid_ipv4 ip p :
    length ip = 4%nat -> length p = 2%nat ->
    valid_encoding (x01 :: ip ++ p)
| valid_ipv6 ip p :
    length ip = 16%nat -> length p = 2%nat ->
    valid_encoding (x04 :: ip ++ p)
| valid_domain l name p :
    length name = Byte.to_nat l -> length p = 2%nat ->
    valid_encoding (x03 :: l :: name ++ p).

(** Whether the address field and the scratch buffer are large enough for
    the body of [wire]: a domain of more than 252 bytes does not fit the
    256-byte scratch buffer behind its two header bytes and before its
    port. *)
Definition within_buffers (ADDR_SIZE : nat) (wire : bytes) : Prop :=
  match wire with
  | [] => True
  | t :: rest =>
      switch_type t
        (4 <= ADDR_SIZE)%nat
        (16 <= ADDR_SIZE)%nat
        (match rest with
         | [] => True
         | l :: _ => (Byte.to_nat l <= 252)%nat /\ (Byte.to_nat l <= ADDR_SIZE)%nat
         end)
        True
  end.

(** ** Names for what the statements below keep mentioning *)

(** [*addr] after the parser's first pop: zeroed, with the tag stored. *)
Definition after_tag (ADDR_SIZE : nat) (tag : byte) : socks5_addr :=
  mk_socks5_addr (repeat x00 ADDR_SIZE) [x00; x00] tag.

Definition is_greeting (b0 b1 b2 : byte) : bool :=
  Byte.eqb b0 x05 && Byte.eqb b1 x01 && Byte.eqb b2 x00.

Definition greeting_log : call :=
  Debug LOG_DEBUG "Processing SOCKS5 initial handshake, len: %d".

Definition request_log : call :=
  Debug LOG_DEBUG "Processing SOCKS5 connection request, len: %d".

Definition invalid_state_log : call :=
  Debug LOG_ERR "Invalid SOCKS5 protocol state".

Definition partial_write_log : call :=
  Debug LOG_DEBUG "Stream %d: Partial write %u/%zu bytes, disabling read".

(** Two arrivals in a row handled by [handle_socks5] on the same client. *)
Definition handle_socks5_twice (ADDR_SIZE : nat) (o : oracle)
    (client : proxy_client) (rb : ring_buffer) (len : Z)
  : io (Z * proxy_client * ring_buffer) :=
  ('(_, client, rb) <- handle_socks5 ADDR_SIZE o client rb len ;;
   handle_socks5 ADDR_SIZE o client rb len)%io.

(** ** Concrete inputs *)

(** An environment in which every call succeeds and the multiplexer takes
    three bytes; bufferevent 9 is the one libevent hands out. *)
Definition willing : oracle := mk_oracle (Some 9%nat) 0 3 true true.

(** The same, except that the connect attempt cannot be started. *)
Definition refusing : oracle := mk_oracle (Some 9%nat) (-1) 3 true true.

Definition fresh_client (s : socks5_state) : proxy_client :=
  mk_proxy_client (Some 1%nat) None s (zero_addr 128) 7.

(** A client whose backend connection 4 is already there. *)
Definition connected_client (s : socks5_state) : proxy_client :=
  mk_proxy_client (Some 1%nat) (Some 4%nat) s (zero_addr 128) 7.

(** 93.184.216.34:80 as an IPv4 SocksAddress. *)
Definition ipv4_wire : bytes := x01 :: [x5d; xb8; xd8; x22] ++ [x00; x50].

(** A domain SocksAddress whose name is as many letters as the length byte
    [l] says, port 80. *)
Definition domain_wire (l : byte) : bytes :=
  x03 :: l :: repeat x61 (Byte.to_nat l) ++ [x00; x50].

Definition connect_request (address : bytes) : bytes :=
  [x05; x01; x00] ++ address.

(** * The rest of proxy_tcp.c *)

(** ** handle_ss5 *)

(** The legacy handler. The result is [(return value, *client, ring buffer
    afterwards)]. *)
Definition handle_ss5 (ADDR_SIZE : nat) (o : oracle) (client : proxy_client)
    (rb : ring_buffer) (len : Z) : io (Z * proxy_client * ring_buffer) :=
  (let bytes_processed := 0 in
   if state_eqb (state client) SOCKS5_ESTABLISHED then
     bev <- lift (match local_proxy_bev client with
                  | Some b => Done b
                  | None => Crash AssertFailed
                  end) ;;
     rb <- tx_ring_buffer_write bev rb len ;;
     io_ret (to_uint32 len, client, rb)
   else if state_eqb (state client) SOCKS5_INIT && (7 <=? len) then
     debug LOG_DEBUG "Processing initial SOCKS5 connection request, len: %d" ;;;
     '(ok, addr_len, a, rb) <- lift (parse_socks5_addr ADDR_SIZE rb len) ;;
     let client := set_remote_addr client a in
     if negb ok then
       debug LOG_ERR "Failed to parse SOCKS5 address" ;;;
       io_ret (bytes_processed, client, rb)
     else
       bev <- socks5_proxy_connect o (remote_addr client) ;;
       let client := set_local_proxy_bev client bev in
       match local_proxy_bev client with
       | None =>
           debug LOG_ERR "Failed to establish proxy connection" ;;;
           io_ret (bytes_processed, client, rb)
       | Some _ =>
           debug LOG_DEBUG
             "SOCKS5 proxy connection established (parsed %d of %d bytes)" ;;;
           io_ret (to_uint32 addr_len, client, rb)
       end
   else
     io_ret (bytes_processed, client, rb))%io.

(** ** tcp_proxy_s2c_cb *)

(** [src] is the input evbuffer of [bev]; the result is that buffer once
    the callback has returned. *)
Definition tcp_proxy_s2c_cb (o : oracle) (bev : bufferevent)
    (ctx : option proxy_client) (src : bytes) : io bytes :=
  (let invalid :=
     debug LOG_ERR "Invalid client or local proxy connection" ;;; io_ret src in
   match ctx with
   | None => invalid
   | Some client =>
   match local_proxy_bev client with
   | None => invalid
   | Some local =>
       let len := length src in
       if (len =? 0)%nat then
         debug LOG_ERR "No data to read from local service" ;;;
         io_ret src
       else if negb (tcp_mux o) then
         emit (EvbufferAddBuffer (Some local) src) ;;;
         io_ret []
       else
         debug LOG_ERR "impossible to reach here" ;;;
         io_ret src
   end
   end)%io.

(** ** Reading a trace *)

(** The bytes a trace hands on, to the tunnel or to another buffer. *)
Definition handed_over (w : world) : list bytes :=
  flat_map (fun c => match c with
                     | TmuxStreamWrite _ data _ => [data]
                     | EvbufferAddBuffer _ data => [data]
                     | TxRingBufferWrite _ data => [data]
                     | _ => []
                     end) w.

(** The bufferevents a trace creates, in order. *)
Definition created (w : world) : list bufferevent :=
  flat_map (fun c => match c with
                     | BuffereventSocketNew b => [b]
                     | _ => []
                     end) w.

(** The connect attempts of a trace, literal or by name. *)
Definition connect_attempts (w : world) : list call :=
  filter (fun c => match c with
                   | BuffereventSocketConnect _ _ _ _ => true
                   | BuffereventSocketConnectHostname _ _ _ _ => true
                   | _ => false
                   end) w.

(** A name the resolver can be handed as a C string: no NUL inside. *)
Definition no_nul (name : bytes) : Prop := Forall (fun b => b <> x00) name.

(** A greeting and then a connection request, each arriving on its own and
    handled with [len] the size of what arrived. *)
Definition greet_then_request (ADDR_SIZE : nat) (o : oracle)
    (client : proxy_client) (greeting request : bytes)
  : io (Z * Z * proxy_client * ring_buffer) :=
  ('(n1, client, rb) <-
     handle_socks5 ADDR_SIZE o client greeting (Z.of_nat (length greeting)) ;;
   '(n2, client, rb) <-
     handle_socks5 ADDR_SIZE o client (rb ++ request)
       (Z.of_nat (length (rb ++ request))) ;;
   io_ret (n1, n2, client, rb))%io.

(** ** Names for the log lines of handle_ss5 *)

Definition ss5_request_log : call :=
  Debug LOG_DEBUG "Processing initial SOCKS5 connection request, len: %d".

Definition ss5_established_log : call :=
  Debug LOG_DEBUG "SOCKS5 proxy connection established (parsed %d of %d bytes)".

(** * tcp_redir.c *)

(** [BEV_EVENT_EOF] and [BEV_EVENT_ERROR] of libevent's bufferevent.h. *)
Definition BEV_EVENT_EOF : Z := 0x10.
Definition BEV_EVENT_ERROR : Z := 0x20.

(** The libevent calls of tcp_redir.c, with what the relay needs of their
    arguments: [bufferevent_setcb] keeps the callback argument, and
    [evbuffer_add_buffer] is named by the two bufferevents whose output
    and input buffers it joins. *)
Inductive redir_call : Type :=
| RedirDebug (level : log_level) (fmt : string)
| RedirSocketNew (bev : bufferevent) (fd : Z)
| RedirSetcb (bev arg : bufferevent)
| RedirEnable (bev : bufferevent) (flags : list ev_flag)
| RedirFree (bev : bufferevent)
| RedirAddBuffer (output_of input_of : bufferevent).

Definition redir_world := list redir_call.

(** The field of [struct tcp_redir_service] the callbacks read. *)
Record tcp_redir_service : Type := mk_tcp_redir_service {
  bev_xfrps : bufferevent
}.

(** [arg] is the [struct bufferevent *] registered with the callback. *)
Definition read_cb (bev arg : bufferevent) (w : redir_world) : redir_world :=
  let bev_out := arg in
  w ++ [RedirAddBuffer bev_out bev].

Definition event_cb (bev : bufferevent) (events : Z) (arg : bufferevent)
    (w : redir_world) : redir_world :=
  let partner := arg in
  if negb (Z.land events BEV_EVENT_EOF =? 0) then
    w ++ [RedirDebug LOG_INFO "connection closed";
          RedirFree bev; RedirFree partner]
  else if negb (Z.land events BEV_EVENT_ERROR =? 0) then
    w ++ [RedirDebug LOG_ERR "some other error";
          RedirFree bev; RedirFree partner]
  else w.

(** [new_bev] is what [bufferevent_socket_new] returns for the accepted
    [fd], [None] for NULL. *)
Definition accept_cb (new_bev : option bufferevent) (fd : Z)
    (trs : tcp_redir_service) (w : redir_world) : redir_world :=
  match new_bev with
  | None => w ++ [RedirDebug LOG_ERR "create bufferevent for local port failed!"]
  | Some bev_in =>
      let bev_out := bev_xfrps trs in
      w ++ [RedirSocketNew bev_in fd;
            RedirSetcb bev_in bev_out;
            RedirSetcb bev_out bev_in;
            RedirEnable bev_in [EV_READ; EV_WRITE];
            RedirEnable bev_out [EV_READ; EV_WRITE];
            RedirDebug LOG_INFO "connect to remote port success!"]
  end.

(** The argument libevent passes to the callbacks of [bev]: the one of the
    last [bufferevent_setcb] on it. *)
Definition cb_arg (bev : bufferevent) (w : redir_world) : option bufferevent :=
  fold_left (fun found c =>
               match c with
               | RedirSetcb b arg => if (b =? bev)%nat then Some arg else found
               | _ => found
               end) w None.

Definition redir_freed (w : redir_world) : list bufferevent :=
  flat_map (fun c => match c with RedirFree b => [b] | _ => [] end) w.

Definition is_freed (bev : bufferevent) (w : redir_world) : bool :=
  existsb (Nat.eqb bev) (redir_freed w).

(** libevent delivering readable data on [bev]: its read callback runs
    with the registered argument, if the bufferevent is still there. *)
Definition deliver_read (bev : bufferevent) (w : redir_world) : redir_world :=
  match cb_arg bev w with
  | Some arg => if is_freed bev w then w else read_cb bev arg w
  | None => w
  end.

(** libevent delivering [events] on [bev]. *)
Definition deliver_event (bev : bufferevent) (events : Z) (w : redir_world)
  : redir_world :=
  match cb_arg bev w with
  | Some arg => if is_freed bev w then w else event_cb bev events arg w
  | None => w
  end.

(** The bufferevents a call works on (a callback argument is only kept). *)
Definition works_on (c : redir_call) : list bufferevent :=
  match c with
  | RedirSetcb b _ | RedirEnable b _ | RedirFree b => [b]
  | RedirAddBuffer o i => [o; i]
  | RedirDebug _ _ | RedirSocketNew _ _ => []
  end.

(** Whether some call of the trace works on a bufferevent that an earlier
    call of the trace has freed. *)
Fixpoint uses_freed_from (gone : list bufferevent) (w : redir_world) : bool :=
  match w with
  | [] => false
  | c :: rest =>
      existsb (fun b => existsb (Nat.eqb b) gone) (works_on c)
      || uses_freed_from (match c with RedirFree b => b :: gone | _ => gone end) rest
  end.

Definition uses_freed (w : redir_world) : bool := uses_freed_from [] w.

(** * Properties *)

(** ** Arithmetic, bytes and lists *)

Lemma switch_type_other {A} (t : byte) (a b c d : A) :
  t <> x01 -> t <> x03 -> t <> x04 -> switch_type t a b c d = d.
Proof. destruct t; intros; try reflexivity; congruence. Qed.

Lemma ltb_true a b : a < b -> (a <? b) = true.
Proof. intro; now apply Z.ltb_lt. Qed.

Lemma ltb_false a b : b <= a -> (a <? b) = false.
Proof. intro; now apply Z.ltb_ge. Qed.

Lemma leb_true a b : a <= b -> (a <=? b) = true.
Proof. intro; now apply Z.leb_le. Qed.

Lemma leb_false a b : b < a -> (a <=? b) = false.
Proof. intro; now apply Z.leb_gt. Qed.

Lemma u8_range (b : byte) : 0 <= u8 b <= 255.
Proof. unfold u8. pose proof (Byte.to_nat_bounded b). lia. Qed.

Lemma is_greeting_spec b0 b1 b2 :
  is_greeting b0 b1 b2 = true <-> b0 = x05 /\ b1 = x01 /\ b2 = x00.
Proof.
  unfold is_greeting. rewrite !andb_true_iff. split.
  - intros [[H0 H1] H2]. repeat split; now apply Byte.byte_dec_bl.
  - intros (-> & -> & ->). repeat split.
Qed.

Lemma firstn_exact {A} (a b : list A) : firstn (length a) (a ++ b) = a.
Proof. induction a as [|x a IH]; simpl; [reflexivity | now rewrite IH]. Qed.

Lemma skipn_exact {A} (a b : list A) : skipn (length a) (a ++ b) = b.
Proof. induction a as [|x a IH]; simpl; [reflexivity | exact IH]. Qed.

Lemma repeat_split {A} (x : A) (n m : nat) :
  (n <= m)%nat -> repeat x m = repeat x n ++ repeat x (m - n).
Proof.
  intros H. rewrite <- repeat_app. f_equal. lia.
Qed.

Lemma bind_Done {A B} (c : exec A) (k : A -> exec B) (r : B) :
  bind c k = Done r -> exists x, c = Done x /\ k x = Done r.
Proof. destruct c as [x|f]; cbn; [eauto | discriminate]. Qed.

(** ** Memory objects and the ring buffer *)

Lemma rx_ring_buffer_pop_front (front rest : bytes) :
  rx_ring_buffer_pop (front ++ rest) (length front) = Done (front, rest).
Proof.
  unfold rx_ring_buffer_pop.
  replace (length front <=? length (front ++ rest))%nat with true.
  - now rewrite firstn_exact, skipn_exact.
  - symmetry. apply Nat.leb_le. rewrite length_app. lia.
Qed.

Lemma store_at (f : fault) (pre old post src : bytes) :
  length old = length src ->
  store f (pre ++ old ++ post) (length pre) src = Done (pre ++ src ++ post).
Proof.
  intros Hlen. unfold store.
  replace (length pre + length src <=? length (pre ++ old ++ post))%nat with true.
  - rewrite firstn_exact. rewrite <- Hlen.
    replace (length pre + length old)%nat with (length (pre ++ old))
      by apply length_app.
    rewrite (app_assoc pre old post), skipn_exact. reflexivity.
  - symmetry. apply Nat.leb_le. rewrite !length_app. lia.
Qed.

Lemma store_past_end (f : fault) (dst src : bytes) (off : nat) :
  (length dst < off + length src)%nat -> store f dst off src = Crash f.
Proof.
  intros H. unfold store.
  replace (off + length src <=? length dst)%nat with false; [reflexivity|].
  symmetry. apply Nat.leb_gt. exact H.
Qed.

Lemma load_at (f : fault) (pre mid post : bytes) :
  load f (pre ++ mid ++ post) (length pre) (length mid) = Done mid.
Proof.
  unfold load.
  replace (length pre + length mid <=? length (pre ++ mid ++ post))%nat with true.
  - now rewrite skipn_exact, firstn_exact.
  - symmetry. apply Nat.leb_le. rewrite !length_app. lia.
Qed.

Lemma store_zeroed_addr (sz : nat) (src : bytes) :
  (length src <= sz)%nat ->
  store AddrOverflow (repeat x00 sz) 0 src
  = Done (src ++ repeat x00 (sz - length src)).
Proof.
  intros H. rewrite (repeat_split x00 (length src) sz H).
  apply (store_at AddrOverflow [] (repeat x00 (length src))).
  apply repeat_length.
Qed.

Lemma store_zeroed_addr_overflow (sz : nat) (src : bytes) :
  (sz < length src)%nat ->
  store AddrOverflow (repeat x00 sz) 0 src = Crash AddrOverflow.
Proof.
  intros H. apply store_past_end. rewrite repeat_length. lia.
Qed.

Lemma pop_into_behind (hdr body rest old pad : bytes) (n : nat) :
  n = length body -> length old = length body ->
  pop_into (body ++ rest) (hdr ++ old ++ pad) (length hdr) n
  = Done (hdr ++ body ++ pad, rest).
Proof.
  intros -> Hold. unfold pop_into.
  rewrite rx_ring_buffer_pop_front. cbn [bind].
  now rewrite store_at.
Qed.

Lemma pop_into_overflow (body rest buf : bytes) (off n : nat) :
  n = length body -> (length buf < off + n)%nat ->
  pop_into (body ++ rest) buf off n = Crash ScratchOverflow.
Proof.
  intros -> H. unfold pop_into.
  rewrite rx_ring_buffer_pop_front. cbn [bind].
  now rewrite store_past_end.
Qed.

Lemma pop_into_Done rb buf off n buf' rb' :
  pop_into rb buf off n = Done (buf', rb') ->
  rb' = skipn n rb /\ (n <= length rb)%nat.
Proof.
  unfold pop_into, rx_ring_buffer_pop.
  destruct (n <=? length rb)%nat eqn:Hn; [|discriminate].
  cbn [bind]. intros H. apply bind_Done in H as (x & _ & H).
  injection H as _ <-. split; [reflexivity | now apply Nat.leb_le].
Qed.

(** ** parse_socks5_addr, case by case *)

Lemma parse_unknown_tag sz tag rest len :
  0 < len -> tag <> x01 -> tag <> x03 -> tag <> x04 ->
  parse_socks5_addr sz (tag :: rest) len = Done (false, 1, after_tag sz tag, rest).
Proof.
  intros Hlen H1 H3 H4. unfold parse_socks5_addr.
  rewrite (ltb_true _ _ Hlen).
  change (repeat x00 scratch_size) with (x00 :: repeat x00 255).
  remember (repeat x00 255) as pad.
  cbn -[switch_type].
  now rewrite switch_type_other.
Qed.

Lemma parse_short_ipv4 sz rest len :
  0 < len -> len < 7 ->
  parse_socks5_addr sz (x01 :: rest) len = Done (false, 1, after_tag sz x01, rest).
Proof.
  intros Hlen H. unfold parse_socks5_addr.
  rewrite (ltb_true _ _ Hlen).
  change (repeat x00 scratch_size) with (x00 :: repeat x00 255).
  remember (repeat x00 255) as pad.
  cbn. now rewrite (ltb_true _ _ H).
Qed.

Lemma parse_short_ipv6 sz rest len :
  0 < len -> len < 19 ->
  parse_socks5_addr sz (x04 :: rest) len = Done (false, 1, after_tag sz x04, rest).
Proof.
  intros Hlen H. unfold parse_socks5_addr.
  rewrite (ltb_true _ _ Hlen).
  change (repeat x00 scratch_size) with (x00 :: repeat x00 255).
  remember (repeat x00 255) as pad.
  cbn. now rewrite (ltb_true _ _ H).
Qed.

Lemma parse_short_domain_header sz rest len :
  0 < len -> len < 2 ->
  parse_socks5_addr sz (x03 :: rest) len = Done (false, 1, after_tag sz x03, rest).
Proof.
  intros Hlen H. unfold parse_socks5_addr.
  rewrite (ltb_true _ _ Hlen).
  change (repeat x00 scratch_size) with (x00 :: repeat x00 255).
  remember (repeat x00 255) as pad.
  cbn. now rewrite (ltb_true _ _ H).
Qed.

Lemma parse_short_domain sz l rest len :
  2 <= len -> len < u8 l + 4 ->
  parse_socks5_addr sz (x03 :: l :: rest) len = Done (false, 1, after_tag sz x03, rest).
Proof.
  intros Hlen H. unfold parse_socks5_addr.
  rewrite (ltb_true 0 len) by lia.
  change (repeat x00 scratch_size) with (x00 :: x00 :: repeat x00 254).
  remember (repeat x00 254) as pad.
  cbn -[u8]. rewrite (ltb_false len 2) by lia.
  cbn -[u8]. now rewrite (ltb_true _ _ H).
Qed.

(** The common tail of the three cases of the parser: the body (address
    bytes, then the port) is popped behind the header already in the
    scratch buffer and copied out into the address structure. *)
Lemma read_body sz (hdr ip p rest old pad : bytes) (ty : byte) (off : Z)
    (k n m k2 : nat) :
  k = length hdr -> n = length (ip ++ p) -> m = length ip ->
  k2 = (k + m)%nat -> length p = 2%nat -> length old = n ->
  (length ip <= sz)%nat ->
  ('(buf, rb) <- pop_into ((ip ++ p) ++ rest) (hdr ++ old ++ pad) k n ;;
   src <- load ScratchOverflow buf k m ;;
   dst <- store AddrOverflow (repeat x00 sz) 0 src ;;
   q <- load ScratchOverflow buf k2 2 ;;
   Done (true, off, mk_socks5_addr dst q ty, rb))
  = Done (true, off, mk_socks5_addr (ip ++ repeat x00 (sz - length ip)) p ty, rest).
Proof.
  intros -> -> -> -> Hp Hold Hsz.
  rewrite pop_into_behind by (reflexivity || assumption). cbn [bind].
  rewrite <- (app_assoc ip p pad).
  rewrite load_at. cbn [bind].
  rewrite store_zeroed_addr by assumption. cbn [bind].
  rewrite (app_assoc hdr ip (p ++ pad)), <- length_app, <- Hp.
  rewrite load_at. reflexivity.
Qed.

Lemma parse_ipv4 sz ip p rest len :
  length ip = 4%nat -> length p = 2%nat -> (4 <= sz)%nat -> 7 <= len ->
  parse_socks5_addr sz (x01 :: (ip ++ p) ++ rest) len
  = Done (true, 7, mk_socks5_addr (ip ++ repeat x00 (sz - length ip)) p x01, rest).
Proof.
  intros Hip Hp Hsz Hlen. unfold parse_socks5_addr.
  rewrite (ltb_true 0 len) by lia.
  change (repeat x00 scratch_size) with (x00 :: (repeat x00 6 ++ repeat x00 249)).
  remember (repeat x00 6) as old eqn:Hold.
  remember (repeat x00 249) as pad.
  cbn. rewrite (ltb_false len 7) by lia.
  apply (read_body sz [x01] ip p rest old pad);
    subst; rewrite ?length_app, ?repeat_length; cbn [length]; lia.
Qed.

Lemma parse_ipv6 sz ip p rest len :
  length ip = 16%nat -> length p = 2%nat -> (16 <= sz)%nat -> 19 <= len ->
  parse_socks5_addr sz (x04 :: (ip ++ p) ++ rest) len
  = Done (true, 19, mk_socks5_addr (ip ++ repeat x00 (sz - length ip)) p x04, rest).
Proof.
  intros Hip Hp Hsz Hlen. unfold parse_socks5_addr.
  rewrite (ltb_true 0 len) by lia.
  change (repeat x00 scratch_size) with (x00 :: (repeat x00 18 ++ repeat x00 237)).
  remember (repeat x00 18) as old eqn:Hold.
  remember (repeat x00 237) as pad.
  cbn. rewrite (ltb_false len 19) by lia.
  apply (read_body sz [x04] ip p rest old pad);
    subst; rewrite ?length_app, ?repeat_length; cbn [length]; lia.
Qed.

Lemma parse_domain sz l name p rest len :
  length name = Byte.to_nat l -> length p = 2%nat ->
  (Byte.to_nat l <= 252)%nat -> (Byte.to_nat l <= sz)%nat ->
  u8 l + 4 <= len ->
  parse_socks5_addr sz (x03 :: l :: (name ++ p) ++ rest) len
  = Done (true, u8 l + 4,
          mk_socks5_addr (name ++ repeat x00 (sz - length name)) p x03, rest).
Proof.
  intros Hname Hp Hfit Hsz Hlen. pose proof (u8_range l) as Hl.
  unfold parse_socks5_addr.
  rewrite (ltb_true 0 len) by lia.
  change (repeat x00 scratch_size) with (x00 :: x00 :: repeat x00 254).
  rewrite (repeat_split x00 (Byte.to_nat l + 2) 254) by lia.
  remember (repeat x00 (Byte.to_nat l + 2)) as old eqn:Hold.
  remember (repeat x00 (254 - (Byte.to_nat l + 2))) as pad.
  cbn -[u8 Byte.to_nat]. rewrite (ltb_false len 2) by lia.
  cbn -[u8 Byte.to_nat]. rewrite (ltb_false len (u8 l + 4)) by lia.
  apply (read_body sz [x03; l] name p rest old pad);
    subst; rewrite ?length_app, ?repeat_length; cbn [length]; lia.
Qed.

Lemma parse_domain_scratch_overflow sz l name p rest len :
  length name = Byte.to_nat l -> length p = 2%nat ->
  (253 <= Byte.to_nat l)%nat -> u8 l + 4 <= len ->
  parse_socks5_addr sz (x03 :: l :: (name ++ p) ++ rest) len
  = Crash ScratchOverflow.
Proof.
  intros Hname Hp Hbig Hlen. pose proof (u8_range l) as Hl.
  unfold parse_socks5_addr.
  rewrite (ltb_true 0 len) by lia.
  change (repeat x00 scratch_size) with (x00 :: x00 :: repeat x00 254).
  remember (repeat x00 254) as pad eqn:Hpad.
  cbn -[u8 Byte.to_nat]. rewrite (ltb_false len 2) by lia.
  cbn -[u8 Byte.to_nat]. rewrite (ltb_false len (u8 l + 4)) by lia.
  rewrite pop_into_overflow; [reflexivity | |].
  - rewrite length_app. lia.
  - cbn [length]. subst pad. rewrite repeat_length. lia.
Qed.

Lemma parse_domain_addr_overflow sz l name p rest len :
  length name = Byte.to_nat l -> length p = 2%nat ->
  (Byte.to_nat l <= 252)%nat -> (sz < Byte.to_nat l)%nat ->
  u8 l + 4 <= len ->
  parse_socks5_addr sz (x03 :: l :: (name ++ p) ++ rest) len
  = Crash AddrOverflow.
Proof.
  intros Hname Hp Hfit Hsz Hlen. pose proof (u8_range l) as Hl.
  unfold parse_socks5_addr.
  rewrite (ltb_true 0 len) by lia.
  change (repeat x00 scratch_size) with (x00 :: x00 :: repeat x00 254).
  rewrite (repeat_split x00 (Byte.to_nat l + 2) 254) by lia.
  remember (repeat x00 (Byte.to_nat l + 2)) as old eqn:Hold.
  remember (repeat x00 (254 - (Byte.to_nat l + 2))) as pad.
  cbn -[u8 Byte.to_nat]. rewrite (ltb_false len 2) by lia.
  cbn -[u8 Byte.to_nat]. rewrite (ltb_false len (u8 l + 4)) by lia.
  rewrite (pop_into_behind [x03; l] (name ++ p) rest old pad).
  - cbn [bind]. rewrite <- (app_assoc name p pad), <- Hname.
    pose proof (load_at ScratchOverflow [x03; l] name (p ++ pad)) as Hload.
    cbn [length] in Hload. cbn [app]. cbn [app] in Hload. rewrite Hload. cbn [bind].
    rewrite store_zeroed_addr_overflow by lia. reflexivity.
  - rewrite length_app. lia.
  - subst old. rewrite length_app, repeat_length. lia.
Qed.

(** ** What a return of the parser tells about the ring buffer *)

Ltac bind_step H :=
  let x := fresh "x" in
  let Hx := fresh "Hx" in
  apply bind_Done in H as (x & Hx & H).

Ltac done_eq H :=
  match type of H with
  | Done (_, ?o, _, ?r) = Done (_, ?o', _, ?r') =>
      assert (o' = o) by congruence; assert (r' = r) by congruence;
      clear H; subst o' r'
  end.

(** What a failing return of the parser has taken from the ring buffer. *)
Lemma parse_fail_inv sz rb len off a rb' :
  parse_socks5_addr sz rb len = Done (false, off, a, rb') ->
  off = 1 /\ type a = at_index rb 0 /\
  ((rb' = skipn 1 rb /\ (1 <= length rb)%nat) \/
   (rb' = skipn 2 rb /\ (2 <= length rb)%nat /\ 2 <= len)).
Proof.
  unfold parse_socks5_addr. intros H.
  bind_step H. clear Hx x.
  bind_step H. destruct x as [buf rb1].
  assert (Hb : at_index buf 0 = at_index rb 0 /\ rb1 = skipn 1 rb /\ (1 <= length rb)%nat).
  { destruct rb as [|t rest]; [discriminate|].
    cbn in Hx. injection Hx as <- <-. cbn. repeat split; lia. }
  destruct Hb as (Ht & -> & Hlen1). cbn [type addr port] in H. rewrite Ht in H.
  clear Hx Ht.
  unfold switch_type in H.
  destruct (at_index rb 0) eqn:Htag;
    try (injection H as <- <- <-; cbn [type]; auto).
  - (* 0x01 *)
    destruct (len <? 7).
    + injection H as <- <- <-. cbn [type]; auto.
    + bind_step H. destruct x. do 3 bind_step H. discriminate.
  - (* 0x03 *)
    destruct (len <? 2) eqn:H2.
    + injection H as <- <- <-. cbn [type]; auto.
    + bind_step H. destruct x as [buf2 rb2].
      apply pop_into_Done in Hx as [-> Hlen2].
      match type of H with context [if ?c then _ else _] => destruct c end.
      * injection H as <- <- <-. cbn [type]. do 2 (split; [reflexivity|]). right.
        apply Z.ltb_ge in H2.
        destruct rb as [|t [|t2 rest]]; cbn in Hlen1, Hlen2 |- *;
          repeat split; try lia.
      * bind_step H. destruct x. do 3 bind_step H. discriminate.
  - (* 0x04 *)
    destruct (len <? 19).
    + injection H as <- <- <-. cbn [type]; auto.
    + bind_step H. destruct x. do 3 bind_step H. discriminate.
Qed.

(** What a successful return of the parser has taken from the ring buffer:
    exactly the [*offset] bytes it reports. *)
Lemma parse_ok_inv sz rb len off a rb' :
  parse_socks5_addr sz rb len = Done (true, off, a, rb') ->
  rb' = skipn (Z.to_nat off) rb /\ (Z.to_nat off <= length rb)%nat /\
  4 <= off <= 259 /\ off <= len.
Proof.
  unfold parse_socks5_addr. intros H.
  bind_step H. clear Hx x.
  bind_step H. destruct x as [buf rb1].
  apply pop_into_Done in Hx as [-> Hlen1].
  cbn [type addr port] in H. unfold switch_type in H.
  destruct (at_index buf 0); try discriminate.
  - (* 0x01 *)
    destruct (len <? 7) eqn:Hlen; [discriminate|]. apply Z.ltb_ge in Hlen.
    bind_step H. destruct x as [buf2 rb2].
    apply pop_into_Done in Hx as [-> Hlen2].
    do 3 bind_step H. done_eq H.
    rewrite skipn_skipn. rewrite length_skipn in Hlen2.
    change (Z.to_nat 7) with 7%nat. repeat split; try lia.
  - (* 0x03 *)
    destruct (len <? 2) eqn:Hlen; [discriminate|].
    bind_step H. destruct x as [buf2 rb2].
    apply pop_into_Done in Hx as [-> Hlen2].
    match type of H with context [if ?c then _ else _] => destruct c eqn:Hfit end;
      [discriminate|]. apply Z.ltb_ge in Hfit.
    bind_step H. destruct x as [buf3 rb3].
    apply pop_into_Done in Hx as [-> Hlen3].
    do 3 bind_step H. done_eq H.
    pose proof (u8_range (at_index buf2 1)) as Hr.
    rewrite !skipn_skipn. rewrite !length_skipn in Hlen3.
    rewrite length_skipn in Hlen2.
    replace (Z.to_nat (u8 (at_index buf2 1) + 4))
      with (Byte.to_nat (at_index buf2 1) + 2 + 1 + 1)%nat by (unfold u8; lia).
    repeat split; try lia.
  - (* 0x04 *)
    destruct (len <? 19) eqn:Hlen; [discriminate|]. apply Z.ltb_ge in Hlen.
    bind_step H. destruct x as [buf2 rb2].
    apply pop_into_Done in Hx as [-> Hlen2].
    do 3 bind_step H. done_eq H.
    rewrite skipn_skipn. rewrite length_skipn in Hlen2.
    change (Z.to_nat 19) with 19%nat. repeat split; try lia.
Qed.

(** ** handle_socks5, branch by branch *)

(** The connection-request branch, once the triple [05 01 00] is read. *)
Lemma handshake_request sz o client rest len w :
  state client = SOCKS5_HANDSHAKE -> 10 <= len ->
  handle_socks5 sz o client (x05 :: x01 :: x00 :: rest) len w
  = match parse_socks5_addr sz rest len with
    | Crash f => Crash f
    | Done (ok, offset, a, rb) =>
        let w1 := w ++ [request_log] in
        let client1 := set_remote_addr client a in
        if negb ok then
          Done (0, client1, rb, w1 ++ [Debug LOG_ERR "Failed to parse SOCKS5 address"])
        else
          match socks5_proxy_connect o a w1 with
          | Crash f => Crash f
          | Done (None, w2) =>
              Done (0, set_local_proxy_bev client1 None, rb,
                    w2 ++ [Debug LOG_ERR "Failed to establish proxy connection"])
          | Done (Some bev, w2) =>
              if len =? offset + 3
              then Done (to_uint32 len, set_local_proxy_bev client1 (Some bev), rb, w2)
              else Crash AssertFailed
          end
    end.
Proof.
  intros Hst Hlen. unfold handle_socks5. rewrite Hst. cbn [state_eqb andb].
  rewrite (leb_true 10 len Hlen).
  cbn -[parse_socks5_addr socks5_proxy_connect to_uint32].
  unfold io_bind, lift.
  destruct (parse_socks5_addr sz rest len) as [[[[ok offset] a] rb]|f];
    [|reflexivity].
  destruct ok; cbn -[socks5_proxy_connect to_uint32]; [|reflexivity].
  unfold request_log.
  destruct (socks5_proxy_connect o a _) as [[[bev|] w2]|f];
    cbn -[to_uint32]; try reflexivity.
  destruct (len =? offset + 3); reflexivity.
Qed.

Lemma handshake_bad_triple sz o client b0 b1 b2 rest len w :
  state client = SOCKS5_HANDSHAKE -> 10 <= len ->
  ~ (b0 = x05 /\ b1 = x01 /\ b2 = x00) ->
  handle_socks5 sz o client (b0 :: b1 :: b2 :: rest) len w
  = Done (0, client, rest,
          w ++ [request_log; Debug LOG_ERR "Invalid SOCKS5 request format"]).
Proof.
  intros Hst Hlen Hbad. unfold handle_socks5. rewrite Hst. cbn [state_eqb andb].
  rewrite (leb_true 10 len Hlen).
  assert (Hg : is_greeting b0 b1 b2 = false).
  { destruct (is_greeting b0 b1 b2) eqn:E; [|reflexivity].
    apply is_greeting_spec in E. contradiction. }
  unfold is_greeting in Hg.
  cbn -[Byte.eqb parse_socks5_addr socks5_proxy_connect].
  destruct (Byte.eqb b0 x05), (Byte.eqb b1 x01), (Byte.eqb b2 x00);
    try discriminate; cbn; rewrite <- app_assoc; reflexivity.
Qed.

(** The last branch: no transition matches. *)
Lemma no_transition sz o client rb len w :
  state client <> SOCKS5_CONNECT ->
  ~ (state client = SOCKS5_INIT /\ 3 <= len) ->
  ~ (state client = SOCKS5_HANDSHAKE /\ 10 <= len) ->
  handle_socks5 sz o client rb len w
  = Done (0, client, rb,
          w ++ invalid_state_log
            :: match local_proxy_bev client with
               | Some bev => [BuffereventFree bev]
               | None => []
               end).
Proof.
  intros Hc Hi Hh. unfold handle_socks5.
  destruct (state client) eqn:Hst; try congruence; cbn [state_eqb andb].
  - rewrite leb_false
      by (destruct (Z.lt_ge_cases len 3); [assumption | exfalso; apply Hi; split; [reflexivity | lia]]).
    destruct (local_proxy_bev client); cbn; rewrite <- ?app_assoc; reflexivity.
  - rewrite leb_false
      by (destruct (Z.lt_ge_cases len 10); [assumption | exfalso; apply Hh; split; [reflexivity | lia]]).
    destruct (local_proxy_bev client); cbn; rewrite <- ?app_assoc; reflexivity.
  - destruct (local_proxy_bev client); cbn; rewrite <- ?app_assoc; reflexivity.
Qed.

(** ** tcp_proxy_c2s_cb and the reactor *)

Lemma read_enabled_after_disable bev w :
  read_enabled bev (w ++ [BuffereventDisable bev [EV_READ]]) = false.
Proof.
  unfold read_enabled. rewrite fold_left_app. cbn.
  now rewrite Nat.eqb_refl.
Qed.

Lemma read_events_while_disabled bev ctx arrivals src w :
  read_enabled bev w = false ->
  read_events bev ctx arrivals src w
  = Done (src ++ concat (map snd arrivals), w).
Proof.
  intros Hoff. revert src.
  induction arrivals as [|[o more] rest IH]; intros src; cbn.
  - now rewrite app_nil_r.
  - unfold io_bind, read_event. rewrite Hoff.
    rewrite IH. now rewrite <- app_assoc.
Qed.

Lemma c2s_mux_offer o bev client ctl src w :
  ctl_bev client = Some ctl -> src <> [] ->
  tcp_mux o = true -> calloc_ok o = true ->
  tcp_proxy_c2s_cb o bev (Some client) src w
  = Done ([], (w ++ [TmuxStreamWrite (Some ctl) src (stream_id client)])
                ++ (if to_uint32 (tmux_written o) <? Z.of_nat (length src)
                    then [partial_write_log; BuffereventDisable bev [EV_READ]]
                    else [])).
Proof.
  intros Hctl Hsrc Hmux Hcalloc. unfold tcp_proxy_c2s_cb.
  rewrite Hctl, Hmux, Hcalloc. cbn [negb].
  destruct src as [|b src]; [contradiction|].
  change (length (b :: src) =? 0)%nat with false. cbv iota.
  unfold bufferevent_read. rewrite Nat.min_id, firstn_all, skipn_all, Nat.eqb_refl.
  cbn [negb]. unfold tmux_stream_write, io_bind, emit, debug, io_ret, emit.
  destruct (to_uint32 (tmux_written o) <? Z.of_nat (length (b :: src))).
  - rewrite <- !app_assoc. reflexivity.
  - rewrite app_nil_r. reflexivity.
Qed.

(** ** Round trips and the size of the scratch buffer *)

Lemma domain_wire_valid (l : byte) : valid_encoding (domain_wire l).
Proof.
  unfold domain_wire. apply valid_domain; [apply repeat_length | reflexivity].
Qed.

Lemma encode_parsed_domain sz l name p :
  length name = Byte.to_nat l ->
  encode_socks5_addr
    (mk_socks5_addr (name ++ repeat x00 (sz - length name)) p x03) (u8 l + 4)
  = Some (x03 :: l :: name ++ p).
Proof.
  intros Hname. unfold encode_socks5_addr. cbn [type addr port switch_type].
  replace (Z.to_nat (u8 l + 4 - 4)) with (Byte.to_nat l) by (unfold u8; lia).
  rewrite Byte.of_to_nat, <- Hname, firstn_exact. reflexivity.
Qed.

(** X1. Decoding and re-encoding is lossless on every valid encoding that
    the two buffers hold: IPv4 and IPv6 when the address field has room for
    them, a domain of at most 252 bytes that the address field has room
    for. *)
Theorem roundtrip_within_buffers sz wire :
  valid_encoding wire -> within_buffers sz wire ->
  decode_encode sz wire = Some wire.
Proof.
  intros Hvalid Hfit. unfold decode_encode.
  destruct Hvalid as [ip p Hip Hp | ip p Hip Hp | l name p Hname Hp];
    cbn [within_buffers switch_type] in Hfit.
  - rewrite <- (app_nil_r (ip ++ p)) at 1.
    rewrite parse_ipv4; try assumption.
    + unfold encode_socks5_addr. cbn [type addr port switch_type].
      rewrite <- Hip, firstn_exact. reflexivity.
    + cbn [length]. rewrite length_app. lia.
  - rewrite <- (app_nil_r (ip ++ p)) at 1.
    rewrite parse_ipv6; try assumption.
    + unfold encode_socks5_addr. cbn [type addr port switch_type].
      rewrite <- Hip, firstn_exact. reflexivity.
    + cbn [length]. rewrite length_app. lia.
  - destruct Hfit as [H252 Hsz].
    rewrite <- (app_nil_r (name ++ p)) at 1.
    rewrite parse_domain; try assumption.
    + now apply encode_parsed_domain.
    + cbn [length]. rewrite length_app. unfold u8. lia.
Qed.

Lemma roundtrip_within_buffers_witness :
  valid_encoding ipv4_wire /\ within_buffers 128 ipv4_wire /\
  decode_encode 128 ipv4_wire = Some ipv4_wire /\
  decode_encode 128 (domain_wire x0b) = Some (domain_wire x0b).
Proof.
  assert (Hv4 : valid_encoding ipv4_wire) by (apply valid_ipv4; reflexivity).
  assert (Hf4 : within_buffers 128 ipv4_wire) by (cbn; lia).
  split; [exact Hv4 | split; [exact Hf4 | split]].
  - apply (roundtrip_within_buffers 128 ipv4_wire Hv4 Hf4).
  - apply (roundtrip_within_buffers 128 (domain_wire x0b)).
    + apply domain_wire_valid.
    + cbn. lia.
Defined.

(** C1 (code defect). The scratch buffer of [parse_socks5_addr] has 256
    bytes, not the 259 of the worst case: for the valid domain encoding
    with length byte 253 (tag, length, 253 name bytes, port: 257 bytes in
    the ring buffer, [len = 257]) the length check passes and the pop of
    255 bytes to [buf + 2] leaves the array. The length is not rejected. *)
Theorem parse_overflows_scratch_at_253 :
  forall sz,
    parse_socks5_addr sz (domain_wire xfd) 257 = Crash ScratchOverflow.
Proof.
  intros sz. unfold domain_wire.
  rewrite <- (app_nil_r (repeat x61 (Byte.to_nat xfd) ++ [x00; x50])).
  apply parse_domain_scratch_overflow.
  - apply repeat_length.
  - reflexivity.
  - cbn. lia.
  - cbn. lia.
Qed.

(** C9 (code defect). The valid domain encoding with length byte 255 does
    not survive decoding: the parser runs off its scratch buffer, so there
    is no decoded structure to encode back. *)
Theorem roundtrip_lost_at_255 :
  forall sz,
    valid_encoding (domain_wire xff) /\
    parse_socks5_addr sz (domain_wire xff) (Z.of_nat (length (domain_wire xff)))
    = Crash ScratchOverflow /\
    decode_encode sz (domain_wire xff) = None.
Proof.
  intros sz.
  assert (Hcrash : parse_socks5_addr sz (domain_wire xff)
                     (Z.of_nat (length (domain_wire xff)))
                   = Crash ScratchOverflow).
  { unfold domain_wire at 1.
    rewrite <- (app_nil_r (repeat x61 (Byte.to_nat xff) ++ [x00; x50])).
    apply parse_domain_scratch_overflow.
    - apply repeat_length.
    - reflexivity.
    - cbn. lia.
    - cbn. lia. }
  split; [apply domain_wire_valid | split; [exact Hcrash |]].
  unfold decode_encode. now rewrite Hcrash.
Qed.

(** C4. A failing [parse_socks5_addr] has taken from the ring buffer only
    bytes its [len] argument vouches for: the tag byte alone ([len > 0] is
    asserted) for a tag other than 01, 03, 04 and for a failed size check
    of IPv4, IPv6 or the domain header; the tag and the length byte (with
    [len >= 2] checked) for a failed domain length check. No failing
    return takes more. *)
Theorem parse_failure_pulls_validated_bytes sz tag rest len :
  0 < len ->
  ((tag <> x01 /\ tag <> x03 /\ tag <> x04) \/
   (tag = x01 /\ len < 7) \/ (tag = x04 /\ len < 19) \/ (tag = x03 /\ len < 2) ->
   parse_socks5_addr sz (tag :: rest) len
   = Done (false, 1, after_tag sz tag, rest)) /\
  (forall l rest',
     tag = x03 -> rest = l :: rest' -> 2 <= len -> len < u8 l + 4 ->
     parse_socks5_addr sz (tag :: rest) len
     = Done (false, 1, after_tag sz tag, rest')) /\
  (forall off a rb',
     parse_socks5_addr sz (tag :: rest) len = Done (false, off, a, rb') ->
     rb' = rest \/ (2 <= len /\ exists l, rest = l :: rb')).
Proof.
  intros Hlen. split; [|split].
  - intros [(H1 & H3 & H4) | [[-> H] | [[-> H] | [-> H]]]].
    + now apply parse_unknown_tag.
    + now apply parse_short_ipv4.
    + now apply parse_short_ipv6.
    + now apply parse_short_domain_header.
  - intros l rest' -> -> H2 Hshort. now apply parse_short_domain.
  - intros off a rb' H.
    apply parse_fail_inv in H as (_ & _ & [[-> _] | (-> & Hlen2 & H2)]).
    + left. reflexivity.
    + right. split; [exact H2|].
      destruct rest as [|l rest']; [cbn in Hlen2; lia|].
      exists l. reflexivity.
Qed.

Lemma parse_failure_pulls_validated_bytes_witness :
  0 < 1 /\
  parse_socks5_addr 128 [x02; x00] 1 = Done (false, 1, after_tag 128 x02, [x00]) /\
  (2 <= 5 /\ 5 < u8 x09 + 4 /\
   parse_socks5_addr 128 [x03; x09; x61; x62; x63] 5
   = Done (false, 1, after_tag 128 x03, [x61; x62; x63])).
Proof.
  split; [lia | split].
  - apply (proj1 (parse_failure_pulls_validated_bytes 128 x02 [x00] 1 ltac:(lia))).
    left. repeat split; discriminate.
  - split; [lia | split; [cbn; lia |]].
    apply (proj1 (proj2 (parse_failure_pulls_validated_bytes
                           128 x03 [x09; x61; x62; x63] 5 ltac:(lia)))
             x09 [x61; x62; x63]); try reflexivity; cbn; lia.
Defined.

(** ** The greeting *)

Lemma tunnel_writes_app (w1 w2 : world) :
  tunnel_writes (w1 ++ w2) = tunnel_writes w1 ++ tunnel_writes w2.
Proof. unfold tunnel_writes. apply flat_map_app. Qed.

Lemma freed_app (w1 w2 : world) : freed (w1 ++ w2) = freed w1 ++ freed w2.
Proof. unfold freed. apply flat_map_app. Qed.

(** C5. In the INIT state with at least 3 bytes announced and [05 01 00]
    at the front of the ring buffer, [handle_socks5] takes these 3 bytes,
    hands the reply [05 00 00] to the tunnel stream of the client, moves
    the client to HANDSHAKE and returns 3. *)
Theorem init_greeting_accepted sz o client rest len w :
  state client = SOCKS5_INIT -> 3 <= len ->
  handle_socks5 sz o client (x05 :: x01 :: x00 :: rest) len w
  = Done (3, set_state client SOCKS5_HANDSHAKE, rest,
          w ++ [greeting_log;
                TmuxStreamWrite (ctl_bev client) [x05; x00; x00] (stream_id client)]).
Proof.
  intros Hst Hlen. unfold handle_socks5. rewrite Hst. cbn [state_eqb andb].
  rewrite (leb_true 3 len Hlen). cbn.
  rewrite <- app_assoc. reflexivity.
Qed.

Lemma init_greeting_accepted_witness :
  state (fresh_client SOCKS5_INIT) = SOCKS5_INIT /\ 3 <= 3 /\
  handle_socks5 128 willing (fresh_client SOCKS5_INIT) [x05; x01; x00] 3 []
  = Done (3, fresh_client SOCKS5_HANDSHAKE, [],
          [greeting_log; TmuxStreamWrite (Some 1%nat) [x05; x00; x00] 7]).
Proof.
  split; [reflexivity | split; [lia |]].
  apply (init_greeting_accepted 128 willing (fresh_client SOCKS5_INIT) [] 3 []);
    [reflexivity | lia].
Defined.

(** C6. In the INIT state with at least 3 bytes announced, when the first
    three bytes are not [05 01 00], [handle_socks5] logs the protocol error
    and returns 0; the three bytes have left the ring buffer all the same,
    nothing is written to the tunnel and the client stays as it was, in
    INIT. *)
Theorem init_bad_greeting sz o client b0 b1 b2 rest len w :
  state client = SOCKS5_INIT -> 3 <= len ->
  ~ (b0 = x05 /\ b1 = x01 /\ b2 = x00) ->
  let w' := w ++ [greeting_log; Debug LOG_ERR "Invalid SOCKS5 handshake"] in
  handle_socks5 sz o client (b0 :: b1 :: b2 :: rest) len w
  = Done (0, client, rest, w') /\
  tunnel_writes w' = tunnel_writes w /\
  state client = SOCKS5_INIT.
Proof.
  intros Hst Hlen Hbad w'. split; [|split; [|exact Hst]].
  - unfold handle_socks5. rewrite Hst. cbn [state_eqb andb].
    rewrite (leb_true 3 len Hlen).
    assert (Hg : is_greeting b0 b1 b2 = false).
    { destruct (is_greeting b0 b1 b2) eqn:E; [|reflexivity].
      apply is_greeting_spec in E. contradiction. }
    unfold is_greeting in Hg.
    cbn -[Byte.eqb].
    destruct (Byte.eqb b0 x05), (Byte.eqb b1 x01), (Byte.eqb b2 x00);
      try discriminate; cbn; subst w'; rewrite <- app_assoc; reflexivity.
  - subst w'. rewrite tunnel_writes_app. cbn. apply app_nil_r.
Qed.

Lemma init_bad_greeting_witness :
  state (fresh_client SOCKS5_INIT) = SOCKS5_INIT /\ 3 <= 4 /\
  handle_socks5 128 willing (fresh_client SOCKS5_INIT) [x04; x01; x00; x2a] 4 []
  = Done (0, fresh_client SOCKS5_INIT, [x2a],
          [greeting_log; Debug LOG_ERR "Invalid SOCKS5 handshake"]).
Proof.
  split; [reflexivity | split; [lia |]].
  apply (init_bad_greeting 128 willing (fresh_client SOCKS5_INIT)
           x04 x01 x00 [x2a] 4 []); [reflexivity | lia |].
  intros (H & _). discriminate H.
Defined.

(** ** The connection request *)

(** C2, as the code has it: the claim's move to CONNECT is not made by
    [handle_socks5]. At the claim's own example (the request for
    93.184.216.34:80, 10 bytes, every call succeeding) the handler returns
    10 and stores the backend connection, and the client is still in
    HANDSHAKE. *)
Lemma handshake_success_keeps_state :
  exists client' w',
    handle_socks5 128 willing (fresh_client SOCKS5_HANDSHAKE)
      (connect_request ipv4_wire) 10 []
    = Done (10, client', [], w') /\
    local_proxy_bev client' = Some 9%nat /\
    state client' = SOCKS5_HANDSHAKE /\
    state client' <> SOCKS5_CONNECT /\
    state client' <> SOCKS5_ESTABLISHED.
Proof.
  eexists. eexists. split; [vm_compute; reflexivity |].
  cbn. repeat split; discriminate.
Qed.

(** C2, amended. In the HANDSHAKE state with at least 10 bytes announced,
    the triple [05 01 00] followed by an address the parser accepts, a
    connect attempt that starts, and [len] equal to [3 + consumed] (the
    handler asserts it): [handle_socks5] stores the decoded address and the
    new backend connection in the client and returns [3 + consumed]. The
    state field is left at HANDSHAKE. *)
Theorem handshake_request_connects sz o client rest len w consumed a rb' bev w2 :
  state client = SOCKS5_HANDSHAKE -> 10 <= len ->
  parse_socks5_addr sz rest len = Done (true, consumed, a, rb') ->
  socks5_proxy_connect o a (w ++ [request_log]) = Done (Some bev, w2) ->
  len = 3 + consumed ->
  let client' := set_local_proxy_bev (set_remote_addr client a) (Some bev) in
  handle_socks5 sz o client (x05 :: x01 :: x00 :: rest) len w
  = Done (3 + consumed, client', rb', w2) /\
  state client' = SOCKS5_HANDSHAKE.
Proof.
  intros Hst Hlen Hparse Hconn Hall client'. split; [|exact Hst].
  rewrite handshake_request by assumption.
  rewrite Hparse. cbn [negb]. cbv zeta. rewrite Hconn.
  replace (len =? consumed + 3) with true by (symmetry; apply Z.eqb_eq; lia).
  apply parse_ok_inv in Hparse as (_ & _ & Hrange & _).
  unfold to_uint32. rewrite Z.mod_small by lia.
  subst len. reflexivity.
Qed.

Lemma handshake_request_connects_witness :
  state (fresh_client SOCKS5_HANDSHAKE) = SOCKS5_HANDSHAKE /\ 10 <= 10 /\
  exists a w2,
    parse_socks5_addr 128 ipv4_wire 10 = Done (true, 7, a, []) /\
    socks5_proxy_connect willing a ([] ++ [request_log]) = Done (Some 9%nat, w2) /\
    handle_socks5 128 willing (fresh_client SOCKS5_HANDSHAKE)
      (connect_request ipv4_wire) 10 []
    = Done (3 + 7,
            set_local_proxy_bev
              (set_remote_addr (fresh_client SOCKS5_HANDSHAKE) a) (Some 9%nat),
            [], w2).
Proof.
  split; [reflexivity | split; [lia |]].
  eexists. eexists.
  assert (Hparse : parse_socks5_addr 128 ipv4_wire 10
                   = Done (true, 7,
                           mk_socks5_addr ([x5d; xb8; xd8; x22] ++ repeat x00 124)
                             [x00; x50] x01, [])) by reflexivity.
  split; [exact Hparse | split; [vm_compute; reflexivity |]].
  apply (handshake_request_connects 128 willing (fresh_client SOCKS5_HANDSHAKE)
           ipv4_wire 10 [] 7 _ [] 9%nat _);
    [reflexivity | lia | exact Hparse | vm_compute; reflexivity | reflexivity].
Defined.

Lemma socks5_proxy_connect_ipv4 o bev ip post p w :
  socket_new_result o = Some bev -> 0 <= connect_result o ->
  length ip = 4%nat ->
  socks5_proxy_connect o (mk_socks5_addr (ip ++ post) p x01) w
  = Done (Some bev,
          w ++ [BuffereventSocketNew bev;
                Debug LOG_DEBUG "SOCKS5 connecting to IPv4: %s:%d";
                BuffereventSocketConnect bev AF_INET ip p;
                BuffereventSetcb bev;
                BuffereventEnable bev [EV_READ; EV_WRITE]]).
Proof.
  intros Hnew Hrc Hip. unfold socks5_proxy_connect. rewrite Hnew.
  cbn [type addr port switch_type].
  pose proof (load_at AddrOverflow [] ip post) as Hload.
  cbn [app length] in Hload. rewrite Hip in Hload.
  unfold io_bind, lift, debug, emit, io_ret. rewrite Hload.
  cbv beta iota. rewrite (ltb_false (connect_result o) 0 Hrc).
  cbv beta iota. rewrite <- !app_assoc. reflexivity.
Qed.

(** X3. The IPv4 connection request for every address and port: a request
    of exactly 10 bytes in HANDSHAKE, with a bufferevent to be had and a
    connect attempt that starts, returns 10, stores the address and the
    backend connection, makes the libevent calls in this order, and leaves
    the state at HANDSHAKE. *)
Theorem handshake_ipv4_request sz o client ip p bev w :
  state client = SOCKS5_HANDSHAKE ->
  length ip = 4%nat -> length p = 2%nat -> (4 <= sz)%nat ->
  socket_new_result o = Some bev -> 0 <= connect_result o ->
  let a := mk_socks5_addr (ip ++ repeat x00 (sz - 4)) p x01 in
  let client' := set_local_proxy_bev (set_remote_addr client a) (Some bev) in
  handle_socks5 sz o client (connect_request (x01 :: ip ++ p)) 10 w
  = Done (10, client', [],
          w ++ [request_log;
                BuffereventSocketNew bev;
                Debug LOG_DEBUG "SOCKS5 connecting to IPv4: %s:%d";
                BuffereventSocketConnect bev AF_INET ip p;
                BuffereventSetcb bev;
                BuffereventEnable bev [EV_READ; EV_WRITE]]) /\
  state client' = SOCKS5_HANDSHAKE.
Proof.
  intros Hst Hip Hp Hsz Hnew Hrc a client'. split; [|exact Hst].
  unfold connect_request. cbn [app].
  rewrite handshake_request by (assumption || lia).
  rewrite <- (app_nil_r (ip ++ p)).
  rewrite parse_ipv4 by (assumption || lia).
  cbn [negb]. cbv zeta. rewrite Hip.
  rewrite (socks5_proxy_connect_ipv4 o bev) by assumption.
  rewrite <- app_assoc. reflexivity.
Qed.

Lemma handshake_ipv4_request_witness :
  state (fresh_client SOCKS5_HANDSHAKE) = SOCKS5_HANDSHAKE /\
  socket_new_result willing = Some 9%nat /\ 0 <= connect_result willing /\
  exists client' w',
    handle_socks5 128 willing (fresh_client SOCKS5_HANDSHAKE)
      (connect_request ipv4_wire) 10 []
    = Done (10, client', [], w').
Proof.
  split; [reflexivity | split; [reflexivity | split; [cbn; lia |]]].
  eexists. eexists.
  apply (handshake_ipv4_request 128 willing (fresh_client SOCKS5_HANDSHAKE)
           [x5d; xb8; xd8; x22] [x00; x50] 9%nat []);
    [reflexivity | reflexivity | reflexivity | lia | reflexivity | cbn; lia].
Defined.

(** C10. Every failure of the connection-request branch returns 0 although
    bytes have left the ring buffer for good: exactly the 3 of the triple
    when the triple is wrong; these 3 and the tag (or tag and length byte)
    when the parser fails; these 3 and the whole address when the connect
    attempt cannot be started. The client stays in HANDSHAKE. *)
Theorem handshake_failure_understates sz o client b0 b1 b2 rest len w :
  state client = SOCKS5_HANDSHAKE -> 10 <= len ->
  let rb := b0 :: b1 :: b2 :: rest in
  let w1 := w ++ [request_log] in
  (~ (b0 = x05 /\ b1 = x01 /\ b2 = x00) ->
   handle_socks5 sz o client rb len w
   = Done (0, client, rest, w1 ++ [Debug LOG_ERR "Invalid SOCKS5 request format"]) /\
   (length rest + 3 = length rb)%nat) /\
  (forall off a rb',
     b0 = x05 /\ b1 = x01 /\ b2 = x00 ->
     parse_socks5_addr sz rest len = Done (false, off, a, rb') ->
     handle_socks5 sz o client rb len w
     = Done (0, set_remote_addr client a, rb',
             w1 ++ [Debug LOG_ERR "Failed to parse SOCKS5 address"]) /\
     (length rb' + 3 < length rb)%nat /\
     state (set_remote_addr client a) = SOCKS5_HANDSHAKE) /\
  (forall off a rb' w2,
     b0 = x05 /\ b1 = x01 /\ b2 = x00 ->
     parse_socks5_addr sz rest len = Done (true, off, a, rb') ->
     socks5_proxy_connect o a w1 = Done (None, w2) ->
     handle_socks5 sz o client rb len w
     = Done (0, set_local_proxy_bev (set_remote_addr client a) None, rb',
             w2 ++ [Debug LOG_ERR "Failed to establish proxy connection"]) /\
     (length rb' + 3 + Z.to_nat off = length rb)%nat /\
     state (set_local_proxy_bev (set_remote_addr client a) None) = SOCKS5_HANDSHAKE).
Proof.
  intros Hst Hlen rb w1. split; [|split].
  - intros Hbad. split; [|subst rb; cbn [length]; lia].
    subst rb w1. rewrite handshake_bad_triple by assumption.
    now rewrite <- app_assoc.
  - intros off a rb' (-> & -> & ->) Hparse. split; [|split; [|exact Hst]].
    + subst rb w1. rewrite handshake_request by assumption.
      rewrite Hparse. reflexivity.
    + apply parse_fail_inv in Hparse as (_ & _ & [[-> H1] | (-> & H2 & _)]);
        subst rb; cbn [length]; rewrite length_skipn; lia.
  - intros off a rb' w2 (-> & -> & ->) Hparse Hconn.
    split; [|split; [|exact Hst]].
    + subst rb w1. rewrite handshake_request by assumption.
      rewrite Hparse. cbn [negb]. cbv zeta. rewrite Hconn. reflexivity.
    + apply parse_ok_inv in Hparse as (-> & Hoff & _ & _).
      subst rb; cbn [length]; rewrite length_skipn; lia.
Qed.

Lemma handshake_failure_understates_witness :
  state (fresh_client SOCKS5_HANDSHAKE) = SOCKS5_HANDSHAKE /\ 10 <= 10 /\
  (* a triple that is not 05 01 00 *)
  handle_socks5 128 willing (fresh_client SOCKS5_HANDSHAKE)
    (x05 :: x02 :: x00 :: ipv4_wire) 10 []
  = Done (0, fresh_client SOCKS5_HANDSHAKE, ipv4_wire,
          ([] ++ [request_log]) ++ [Debug LOG_ERR "Invalid SOCKS5 request format"]) /\
  (* an address the parser refuses *)
  handle_socks5 128 willing (fresh_client SOCKS5_HANDSHAKE)
    (x05 :: x01 :: x00 :: x02 :: [x5d; xb8; xd8; x22; x00; x50]) 10 []
  = Done (0, set_remote_addr (fresh_client SOCKS5_HANDSHAKE) (after_tag 128 x02),
          [x5d; xb8; xd8; x22; x00; x50],
          ([] ++ [request_log]) ++ [Debug LOG_ERR "Failed to parse SOCKS5 address"]) /\
  (* a connect attempt that cannot be started *)
  exists a w2,
    socks5_proxy_connect refusing a ([] ++ [request_log]) = Done (None, w2) /\
    handle_socks5 128 refusing (fresh_client SOCKS5_HANDSHAKE)
      (x05 :: x01 :: x00 :: ipv4_wire) 10 []
    = Done (0, set_local_proxy_bev
                 (set_remote_addr (fresh_client SOCKS5_HANDSHAKE) a) None,
            [], w2 ++ [Debug LOG_ERR "Failed to establish proxy connection"]).
Proof.
  split; [reflexivity | split; [lia | split; [|split]]].
  - apply (proj1 (handshake_failure_understates 128 willing
                    (fresh_client SOCKS5_HANDSHAKE) x05 x02 x00 ipv4_wire 10 []
                    eq_refl ltac:(lia))).
    intros (_ & H & _). discriminate H.
  - apply (proj1 (proj2 (handshake_failure_understates 128 willing
                    (fresh_client SOCKS5_HANDSHAKE) x05 x01 x00
                    (x02 :: [x5d; xb8; xd8; x22; x00; x50]) 10 []
                    eq_refl ltac:(lia))) 1 (after_tag 128 x02)).
    + repeat split.
    + reflexivity.
  - eexists. eexists.
    assert (Hparse : parse_socks5_addr 128 ipv4_wire 10
                     = Done (true, 7,
                             mk_socks5_addr ([x5d; xb8; xd8; x22] ++ repeat x00 124)
                               [x00; x50] x01, [])) by reflexivity.
    split.
    + instantiate (2 := mk_socks5_addr ([x5d; xb8; xd8; x22] ++ repeat x00 124)
                          [x00; x50] x01).
      vm_compute. reflexivity.
    + apply (proj2 (proj2 (handshake_failure_understates 128 refusing
                      (fresh_client SOCKS5_HANDSHAKE) x05 x01 x00 ipv4_wire 10 []
                      eq_refl ltac:(lia))) 7 _ [] _).
      * repeat split.
      * exact Hparse.
      * vm_compute. reflexivity.
Defined.

(** ** No transition, and releasing the backend connection *)

(** C7, as the code has it: the claim's "tears nothing down" fails. With
    the client in HANDSHAKE, its backend connection 4 set and 2 bytes in
    the ring buffer, [handle_socks5] returns 0, leaves the bytes and the
    client alone, and frees the backend connection. *)
Lemma insufficient_data_frees_backend :
  exists w',
    handle_socks5 128 willing (connected_client SOCKS5_HANDSHAKE) [x05; x01] 2 []
    = Done (0, connected_client SOCKS5_HANDSHAKE, [x05; x01], w') /\
    freed w' = [4%nat] /\
    freed w' <> freed [].
Proof.
  exists [invalid_state_log; BuffereventFree 4%nat].
  split; [reflexivity | split; [reflexivity | discriminate]].
Qed.

(** C7, amended. When no transition matches (the state is not CONNECT, it
    is not INIT with 3 bytes or more, and not HANDSHAKE with 10 bytes or
    more), [handle_socks5] logs an invalid protocol state as an error,
    returns 0, takes nothing from the ring buffer and leaves the client
    record as it was; it frees the backend connection when the client
    holds one, and only for a client that holds none nothing is released. *)
Theorem no_transition_returns_zero sz o client rb len w :
  state client <> SOCKS5_CONNECT ->
  ~ (state client = SOCKS5_INIT /\ 3 <= len) ->
  ~ (state client = SOCKS5_HANDSHAKE /\ 10 <= len) ->
  let w' := w ++ invalid_state_log
              :: match local_proxy_bev client with
                 | Some bev => [BuffereventFree bev]
                 | None => []
                 end in
  handle_socks5 sz o client rb len w = Done (0, client, rb, w') /\
  freed w' = freed w ++ match local_proxy_bev client with
                        | Some bev => [bev]
                        | None => []
                        end /\
  tunnel_writes w' = tunnel_writes w.
Proof.
  intros Hc Hi Hh w'. split; [|split].
  - now apply no_transition.
  - subst w'. rewrite freed_app. f_equal.
    destruct (local_proxy_bev client); reflexivity.
  - subst w'. rewrite tunnel_writes_app.
    destruct (local_proxy_bev client); cbn; apply app_nil_r.
Qed.

Lemma no_transition_returns_zero_witness :
  state (fresh_client SOCKS5_INIT) <> SOCKS5_CONNECT /\
  handle_socks5 128 willing (fresh_client SOCKS5_INIT) [x05; x01] 2 []
  = Done (0, fresh_client SOCKS5_INIT, [x05; x01], [] ++ [invalid_state_log]) /\
  handle_socks5 128 willing (connected_client SOCKS5_HANDSHAKE) [x05; x01] 2 []
  = Done (0, connected_client SOCKS5_HANDSHAKE, [x05; x01],
          [] ++ [invalid_state_log; BuffereventFree 4%nat]).
Proof.
  split; [discriminate | split].
  - apply (no_transition_returns_zero 128 willing (fresh_client SOCKS5_INIT)
             [x05; x01] 2 []).
    + discriminate.
    + intros [_ H]. lia.
    + intros [H _]. discriminate H.
  - apply (no_transition_returns_zero 128 willing (connected_client SOCKS5_HANDSHAKE)
             [x05; x01] 2 []).
    + discriminate.
    + intros [H _]. discriminate H.
    + intros [_ H]. lia.
Defined.

(** The handle survives its release: after the last branch has freed the
    backend connection, [local_proxy_bev] still names it, and the same
    arrival handled once more frees it once more. *)
Lemma release_leaves_handle sz o client bev rb len w :
  state client <> SOCKS5_CONNECT ->
  ~ (state client = SOCKS5_INIT /\ 3 <= len) ->
  ~ (state client = SOCKS5_HANDSHAKE /\ 10 <= len) ->
  local_proxy_bev client = Some bev ->
  exists w',
    handle_socks5_twice sz o client rb len w = Done (0, client, rb, w') /\
    freed w' = freed w ++ [bev; bev].
Proof.
  intros Hc Hi Hh Hbev.
  exists ((w ++ [invalid_state_log; BuffereventFree bev])
            ++ [invalid_state_log; BuffereventFree bev]).
  split.
  - unfold handle_socks5_twice, io_bind.
    rewrite !no_transition by assumption. rewrite Hbev. reflexivity.
  - rewrite !freed_app. cbn. now rewrite <- app_assoc.
Qed.

(** C3 (code defect). The release on the invalid-state path does not null
    [local_proxy_bev]: a client in HANDSHAKE holding backend connection 4,
    handed one pending byte twice, ends with the handle still set and the
    connection freed twice. *)
Theorem release_twice_frees_twice :
  exists client' w',
    handle_socks5_twice 128 willing (connected_client SOCKS5_HANDSHAKE) [x00] 1 []
    = Done (0, client', [x00], w') /\
    local_proxy_bev client' = Some 4%nat /\
    freed w' = [4%nat; 4%nat].
Proof.
  destruct (release_leaves_handle 128 willing (connected_client SOCKS5_HANDSHAKE)
              4%nat [x00] 1 []) as (w' & Hrun & Hfreed).
  - discriminate.
  - intros [H _]. discriminate H.
  - intros [_ H]. lia.
  - reflexivity.
  - exists (connected_client SOCKS5_HANDSHAKE), w'.
    split; [exact Hrun | split; [reflexivity | exact Hfreed]].
Qed.

(** ** Backpressure on the multiplexed path *)

(** C8. In multiplexed mode, when [tmux_stream_write] reports fewer bytes
    than [tcp_proxy_c2s_cb] offered, the callback disables [EV_READ] on the
    source bufferevent before it returns, once; the offer is the only one
    of the event, and as long as reading stays disabled no later arrival on
    that bufferevent reaches the tunnel: the trace stays as it is and the
    bytes wait in the input buffer. *)
Theorem c2s_partial_accept_disables_read o bev client ctl src w :
  ctl_bev client = Some ctl -> src <> [] ->
  tcp_mux o = true -> calloc_ok o = true ->
  to_uint32 (tmux_written o) < Z.of_nat (length src) ->
  let w' := w ++ [TmuxStreamWrite (Some ctl) src (stream_id client);
                  partial_write_log;
                  BuffereventDisable bev [EV_READ]] in
  tcp_proxy_c2s_cb o bev (Some client) src w = Done ([], w') /\
  read_enabled bev w' = false /\
  forall arrivals,
    read_events bev (Some client) arrivals [] w'
    = Done (concat (map snd arrivals), w').
Proof.
  intros Hctl Hsrc Hmux Hcalloc Hpartial w'.
  assert (Hoff : read_enabled bev w' = false).
  { subst w'.
    change (w ++ [TmuxStreamWrite (Some ctl) src (stream_id client);
                  partial_write_log; BuffereventDisable bev [EV_READ]])
      with (w ++ [TmuxStreamWrite (Some ctl) src (stream_id client);
                  partial_write_log] ++ [BuffereventDisable bev [EV_READ]]).
    rewrite app_assoc. apply read_enabled_after_disable. }
  split; [|split].
  - rewrite (c2s_mux_offer o bev client ctl src w) by assumption.
    rewrite (ltb_true _ _ Hpartial). subst w'. now rewrite <- app_assoc.
  - exact Hoff.
  - intros arrivals. now rewrite read_events_while_disabled.
Qed.

Lemma c2s_partial_accept_disables_read_witness :
  ctl_bev (connected_client SOCKS5_CONNECT) = Some 1%nat /\
  to_uint32 (tmux_written willing) < Z.of_nat (length [x68; x65; x6c; x6c; x6f]) /\
  tcp_proxy_c2s_cb willing 4%nat (Some (connected_client SOCKS5_CONNECT))
    [x68; x65; x6c; x6c; x6f] []
  = Done ([], [] ++ [TmuxStreamWrite (Some 1%nat) [x68; x65; x6c; x6c; x6f] 7;
                     partial_write_log;
                     BuffereventDisable 4%nat [EV_READ]]).
Proof.
  split; [reflexivity | split; [cbn; lia |]].
  apply (c2s_partial_accept_disables_read willing 4%nat
           (connected_client SOCKS5_CONNECT) 1%nat [x68; x65; x6c; x6c; x6f] []);
    [reflexivity | discriminate | reflexivity | reflexivity | cbn; lia].
Defined.

(** ** Further facts about the parser *)

(** X2. Every domain length from 253 on overruns the scratch buffer,
    whatever the name: the pop of [domain_len + 2] bytes to [buf + 2] ends
    past the 256 bytes of [buf] although the length check has passed. *)
Theorem long_domain_overflows_scratch sz l name p rest len :
  length name = Byte.to_nat l -> length p = 2%nat ->
  (253 <= Byte.to_nat l)%nat -> u8 l + 4 <= len ->
  parse_socks5_addr sz (x03 :: l :: (name ++ p) ++ rest) len
  = Crash ScratchOverflow /\
  (scratch_size < 2 + (Byte.to_nat l + 2))%nat.
Proof.
  intros Hname Hp Hbig Hlen. split.
  - now apply parse_domain_scratch_overflow.
  - unfold scratch_size. lia.
Qed.

Lemma long_domain_overflows_scratch_witness :
  (253 <= Byte.to_nat xfe)%nat /\ u8 xfe + 4 <= 300 /\
  parse_socks5_addr 128
    (x03 :: xfe :: (repeat x61 254 ++ [x00; x50]) ++ [x2a]) 300
  = Crash ScratchOverflow.
Proof.
  split; [cbn; lia | split; [cbn; lia |]].
  apply (long_domain_overflows_scratch 128 xfe (repeat x61 254) [x00; x50] [x2a] 300);
    [reflexivity | reflexivity | cbn; lia | cbn; lia].
Defined.

(** The assertion behind the success return: one byte behind the request
    and the handler stops at [assert(len == offset + 3)]. *)
Example handshake_request_with_trailing_byte :
  handle_socks5 128 willing (fresh_client SOCKS5_HANDSHAKE)
    (connect_request ipv4_wire ++ [x2a]) 11 []
  = Crash AssertFailed.
Proof. reflexivity. Qed.

(** * More about the parser *)

Lemma bind_not_underflow {A B} (c : exec A) (k : A -> exec B) :
  c <> Crash RingUnderflow ->
  (forall x, c = Done x -> k x <> Crash RingUnderflow) ->
  bind c k <> Crash RingUnderflow.
Proof.
  intros Hc Hk. destruct c as [x|f]; cbn.
  - now apply Hk.
  - intros E. apply Hc. congruence.
Qed.

Lemma load_not_underflow (src : bytes) (off n : nat) :
  load ScratchOverflow src off n <> Crash RingUnderflow.
Proof. unfold load. destruct (_ <=? _)%nat; discriminate. Qed.

Lemma store_not_underflow (f : fault) (dst src : bytes) (off : nat) :
  f <> RingUnderflow -> store f dst off src <> Crash RingUnderflow.
Proof.
  intros Hf. unfold store. destruct (_ <=? _)%nat; [discriminate | congruence].
Qed.

Lemma pop_into_not_underflow rb buf off n :
  (n <= length rb)%nat -> pop_into rb buf off n <> Crash RingUnderflow.
Proof.
  intros Hn. unfold pop_into, rx_ring_buffer_pop.
  replace (n <=? length rb)%nat with true by (symmetry; now apply Nat.leb_le).
  cbn [bind]. apply bind_not_underflow.
  - apply store_not_underflow. discriminate.
  - intros x _. discriminate.
Qed.

(** The copy-out that ends each case of the parser never asks the ring
    buffer for anything. *)
Lemma copy_out_not_underflow sz (buf : bytes) (k m k2 : nat) (ty : byte)
    (off : Z) (rb : ring_buffer) :
  (src <- load ScratchOverflow buf k m ;;
   dst <- store AddrOverflow (repeat x00 sz) 0 src ;;
   q <- load ScratchOverflow buf k2 2 ;;
   Done (true, off, mk_socks5_addr dst q ty, rb)) <> Crash RingUnderflow.
Proof.
  apply bind_not_underflow; [apply load_not_underflow | intros src _].
  apply bind_not_underflow;
    [apply store_not_underflow; discriminate | intros dst _].
  apply bind_not_underflow; [apply load_not_underflow | intros q _].
  discriminate.
Qed.

Lemma parse_not_underflow sz rb len :
  len <= Z.of_nat (length rb) ->
  parse_socks5_addr sz rb len <> Crash RingUnderflow.
Proof.
  intros Hlen. unfold parse_socks5_addr.
  destruct (0 <? len) eqn:Hpos; [|discriminate].
  apply Z.ltb_lt in Hpos. cbn [c_assert bind].
  apply bind_not_underflow; [apply pop_into_not_underflow; lia|].
  intros [buf rb1] Hpop1. apply pop_into_Done in Hpop1 as [-> H1].
  cbn [type addr port zero_addr]. unfold switch_type.
  destruct (at_index buf 0); try discriminate.
  - (* 0x01 *)
    destruct (len <? 7) eqn:H7; [discriminate|]. apply Z.ltb_ge in H7.
    apply bind_not_underflow;
      [apply pop_into_not_underflow; rewrite length_skipn; lia|].
    intros [buf2 rb2] _. apply copy_out_not_underflow.
  - (* 0x03 *)
    destruct (len <? 2) eqn:H2; [discriminate|]. apply Z.ltb_ge in H2.
    apply bind_not_underflow;
      [apply pop_into_not_underflow; rewrite length_skipn; lia|].
    intros [buf2 rb2] Hpop2. apply pop_into_Done in Hpop2 as [-> _].
    destruct (len <? u8 (at_index buf2 1) + 4) eqn:Hfit; [discriminate|].
    apply Z.ltb_ge in Hfit. unfold u8 in Hfit.
    apply bind_not_underflow;
      [apply pop_into_not_underflow; rewrite !length_skipn; lia|].
    intros [buf3 rb3] _. apply copy_out_not_underflow.
  - (* 0x04 *)
    destruct (len <? 19) eqn:H19; [discriminate|]. apply Z.ltb_ge in H19.
    apply bind_not_underflow;
      [apply pop_into_not_underflow; rewrite length_skipn; lia|].
    intros [buf2 rb2] _. apply copy_out_not_underflow.
Qed.

Lemma parse_Done_positive_len sz rb len r :
  parse_socks5_addr sz rb len = Done r -> 0 < len.
Proof.
  unfold parse_socks5_addr. destruct (0 <? len) eqn:Hpos.
  - intros _. now apply Z.ltb_lt.
  - discriminate.
Qed.

(** How many bytes a return of the parser has taken, against what it
    reports in [*offset]. *)
Lemma parse_Done_accounting sz rb len ok off a rb' :
  parse_socks5_addr sz rb len = Done (ok, off, a, rb') ->
  if ok
  then length rb = (length rb' + Z.to_nat off)%nat /\ 4 <= off <= 259 /\ off <= len
  else off = 1 /\
       (length rb = (length rb' + 1)%nat \/
        (length rb = (length rb' + 2)%nat /\ 2 <= len)).
Proof.
  intros H. destruct ok.
  - apply parse_ok_inv in H as (-> & Hoff & Hrange & Hle).
    rewrite length_skipn. repeat split; lia.
  - apply parse_fail_inv in H as (-> & _ & [[-> H1] | (-> & H2 & Hlen)]);
      (split; [reflexivity|]); rewrite length_skipn; [left | right]; lia.
Qed.

(** X4. The parser never asks the ring buffer for more than [len] bytes:
    when the ring buffer holds at least [len] bytes no pop runs past its
    end, and whatever the parser returns, it has taken at most [len]
    bytes. *)
Theorem parse_never_pops_past_len sz rb len :
  len <= Z.of_nat (length rb) ->
  parse_socks5_addr sz rb len <> Crash RingUnderflow /\
  forall ok off a rb',
    parse_socks5_addr sz rb len = Done (ok, off, a, rb') ->
    (length rb' <= length rb)%nat /\
    Z.of_nat (length rb - length rb') <= len.
Proof.
  intros Hlen. split; [now apply parse_not_underflow|].
  intros ok off a rb' H.
  pose proof (parse_Done_positive_len _ _ _ _ H) as Hpos.
  apply parse_Done_accounting in H. destruct ok.
  - destruct H as (Hl & Hrange & Hle). split; lia.
  - destruct H as (_ & [Hl | [Hl H2]]); split; lia.
Qed.

Lemma parse_never_pops_past_len_witness :
  7 <= Z.of_nat (length (ipv4_wire ++ [x2a])) /\
  parse_socks5_addr 128 (ipv4_wire ++ [x2a]) 7 <> Crash RingUnderflow.
Proof.
  split; [cbn; lia|].
  apply (proj1 (parse_never_pops_past_len 128 (ipv4_wire ++ [x2a]) 7
                  ltac:(cbn; lia))).
Defined.

(** X5. [*offset] counts the bytes taken only when the parser succeeds:
    then exactly [*offset] bytes have left the ring buffer, between 4 and
    259 and no more than [len]. When it fails [*offset] is 1, also after a
    failed domain length check, where two bytes are gone. *)
Theorem parse_offset_accounting sz rb len ok off a rb' :
  parse_socks5_addr sz rb len = Done (ok, off, a, rb') ->
  (ok = true ->
   length rb = (length rb' + Z.to_nat off)%nat /\ 4 <= off <= 259 /\ off <= len) /\
  (ok = false ->
   off = 1 /\
   (length rb = (length rb' + 1)%nat \/
    (length rb = (length rb' + 2)%nat /\ 2 <= len))).
Proof.
  intros H. apply parse_Done_accounting in H.
  split; intros ->; exact H.
Qed.

Lemma parse_offset_accounting_witness :
  parse_socks5_addr 128 [x03; x09; x61; x62; x63] 5
  = Done (false, 1, after_tag 128 x03, [x61; x62; x63]) /\
  length [x03; x09; x61; x62; x63] = (length [x61; x62; x63] + 2)%nat /\
  (1 = 1 /\
   (length [x03; x09; x61; x62; x63] = (length [x61; x62; x63] + 1)%nat \/
    (length [x03; x09; x61; x62; x63] = (length [x61; x62; x63] + 2)%nat /\
     2 <= 5))).
Proof.
  assert (H : parse_socks5_addr 128 [x03; x09; x61; x62; x63] 5
              = Done (false, 1, after_tag 128 x03, [x61; x62; x63]))
    by reflexivity.
  split; [exact H | split; [reflexivity|]].
  exact (proj2 (parse_offset_accounting 128 _ 5 false 1 _ _ H) eq_refl).
Defined.



(** X7. The copy of a domain name into [addr->addr] is not bounded by the
    size of that field: a name that fits the scratch buffer but is longer
    than the field is copied past its end. *)
Theorem long_domain_overflows_addr_field sz l name p rest len :
  length name = Byte.to_nat l -> length p = 2%nat ->
  (Byte.to_nat l <= 252)%nat -> (sz < Byte.to_nat l)%nat ->
  u8 l + 4 <= len ->
  parse_socks5_addr sz (x03 :: l :: (name ++ p) ++ rest) len
  = Crash AddrOverflow /\
  (length (addr (zero_addr sz)) < length name)%nat.
Proof.
  intros Hname Hp Hfit Hsz Hlen. split.
  - now apply parse_domain_addr_overflow.
  - cbn [zero_addr addr]. rewrite repeat_length. lia.
Qed.

Lemma long_domain_overflows_addr_field_witness :
  (Byte.to_nat x15 <= 252)%nat /\ (20 < Byte.to_nat x15)%nat /\
  parse_socks5_addr 20 (x03 :: x15 :: (repeat x61 21 ++ [x00; x50]) ++ []) 25
  = Crash AddrOverflow.
Proof.
  split; [cbn; lia | split; [cbn; lia|]].
  apply (long_domain_overflows_addr_field 20 x15 (repeat x61 21) [x00; x50] [] 25);
    [reflexivity | reflexivity | cbn; lia | cbn; lia | cbn; lia].
Defined.

(** * The connector *)

Lemma created_app (w1 w2 : world) : created (w1 ++ w2) = created w1 ++ created w2.
Proof. unfold created. apply flat_map_app. Qed.

Lemma read_enabled_app_enable bev w fl :
  existsb is_read fl = true ->
  read_enabled bev (w ++ [BuffereventEnable bev fl]) = true.
Proof.
  intros Hfl. unfold read_enabled. rewrite fold_left_app. cbn.
  now rewrite Nat.eqb_refl, Hfl.
Qed.

(** What the connector's last step makes of the connect result. *)
Lemma connect_finish_cases o bev (w1 : world) r w' :
  (if connect_result o <? 0
   then fun w : world =>
     Done (None, (w ++ [Debug LOG_ERR "Failed to connect SOCKS5 proxy (type %d)"])
                   ++ [BuffereventFree bev])
   else fun w : world =>
     Done (Some bev, (w ++ [BuffereventSetcb bev])
                       ++ [BuffereventEnable bev [EV_READ; EV_WRITE]])) w1
  = Done (r, w') ->
  (r = None /\ connect_result o < 0 /\
   w' = w1 ++ [Debug LOG_ERR "Failed to connect SOCKS5 proxy (type %d)";
               BuffereventFree bev]) \/
  (r = Some bev /\ 0 <= connect_result o /\
   w' = w1 ++ [BuffereventSetcb bev; BuffereventEnable bev [EV_READ; EV_WRITE]]).
Proof.
  destruct (connect_result o <? 0) eqn:Hrc; intros H;
    injection H as <- <-; rewrite <- app_assoc; [left | right];
    (split; [reflexivity | split; [|reflexivity]]).
  - now apply Z.ltb_lt.
  - now apply Z.ltb_ge.
Qed.

(** Every way the connector returns: which bufferevent it made, what it
    did with it, and the calls it added to the trace. *)
Lemma socks5_proxy_connect_outcome o a w r w' :
  socks5_proxy_connect o a w = Done (r, w') ->
  (socket_new_result o = None /\ r = None /\
   w' = w ++ [Debug LOG_ERR "Failed to create bufferevent for SOCKS5 proxy"]) \/
  exists bev attempt,
    socket_new_result o = Some bev /\
    ((r = Some bev /\ 0 <= connect_result o /\
      w' = (w ++ BuffereventSocketNew bev :: attempt)
             ++ [BuffereventSetcb bev; BuffereventEnable bev [EV_READ; EV_WRITE]]) \/
     (r = None /\
      w' = (w ++ BuffereventSocketNew bev :: attempt) ++ [BuffereventFree bev])) /\
    freed attempt = [] /\ created attempt = [] /\
    (length (connect_attempts attempt) = 1%nat \/
     (connect_attempts attempt = [] /\ r = None /\
      type a <> x01 /\ type a <> x03 /\ type a <> x04)).
Proof.
  unfold socks5_proxy_connect.
  destruct (socket_new_result o) as [bev|] eqn:Hnew.
  2:{ intros H. left. cbn in H. injection H as <- <-. auto. }
  intros H. right. exists bev.
  destruct (Byte.byte_eq_dec (type a) x01) as [E1|N1];
    [|destruct (Byte.byte_eq_dec (type a) x04) as [E4|N4];
      [|destruct (Byte.byte_eq_dec (type a) x03) as [E3|N3]]].
  - rewrite E1 in H. cbn [switch_type] in H.
    unfold io_bind, lift, debug, emit, io_ret in H.
    destruct (load AddrOverflow (addr a) 0 4) as [ip|f]; [|discriminate].
    cbv beta iota in H.
    apply connect_finish_cases in H as [(-> & Hrc & ->) | (-> & Hrc & ->)].
    + exists [Debug LOG_DEBUG "SOCKS5 connecting to IPv4: %s:%d";
            BuffereventSocketConnect bev AF_INET ip (port a);
              Debug LOG_ERR "Failed to connect SOCKS5 proxy (type %d)"].
      split; [reflexivity|]. split; [|repeat split; left; reflexivity].
      right. split; [reflexivity|]. rewrite <- !app_assoc. reflexivity.
    + exists [Debug LOG_DEBUG "SOCKS5 connecting to IPv4: %s:%d";
            BuffereventSocketConnect bev AF_INET ip (port a)].
      split; [reflexivity|]. split; [|repeat split; left; reflexivity].
      left. repeat split; try assumption. rewrite <- !app_assoc. reflexivity.
  - rewrite E4 in H. cbn [switch_type] in H.
    unfold io_bind, lift, debug, emit, io_ret in H.
    destruct (load AddrOverflow (addr a) 0 16) as [ip|f]; [|discriminate].
    cbv beta iota in H.
    apply connect_finish_cases in H as [(-> & Hrc & ->) | (-> & Hrc & ->)].
    + exists [BuffereventSocketConnect bev AF_INET6 ip (port a);
              Debug LOG_ERR "Failed to connect SOCKS5 proxy (type %d)"].
      split; [reflexivity|]. split; [|repeat split; left; reflexivity].
      right. split; [reflexivity|]. rewrite <- !app_assoc. reflexivity.
    + exists [BuffereventSocketConnect bev AF_INET6 ip (port a)].
      split; [reflexivity|]. split; [|repeat split; left; reflexivity].
      left. repeat split; try assumption. rewrite <- !app_assoc. reflexivity.
  - rewrite E3 in H. cbn [switch_type] in H.
    unfold io_bind, lift, debug, emit, io_ret in H.
    destruct (c_string (addr a)) as [host|]; [|discriminate].
    cbv beta iota in H.
    apply connect_finish_cases in H as [(-> & Hrc & ->) | (-> & Hrc & ->)].
    + exists [Debug LOG_DEBUG "SOCKS5 connecting to domain: %s:%d";
            BuffereventSocketConnectHostname bev AF_INET host (ntohs (port a));
              Debug LOG_ERR "Failed to connect SOCKS5 proxy (type %d)"].
      split; [reflexivity|]. split; [|repeat split; left; reflexivity].
      right. split; [reflexivity|]. rewrite <- !app_assoc. reflexivity.
    + exists [Debug LOG_DEBUG "SOCKS5 connecting to domain: %s:%d";
            BuffereventSocketConnectHostname bev AF_INET host (ntohs (port a))].
      split; [reflexivity|]. split; [|repeat split; left; reflexivity].
      left. repeat split; try assumption. rewrite <- !app_assoc. reflexivity.
  - rewrite switch_type_other in H by assumption.
    unfold io_bind, lift, debug, emit, io_ret in H. cbv beta iota in H.
    injection H as <- <-.
    exists [Debug LOG_ERR "Invalid SOCKS5 address type: %d"].
    split; [reflexivity|].
    split; [right; split; [reflexivity|] |].
    + rewrite <- !app_assoc. reflexivity.
    + repeat split; try reflexivity. right. repeat split; assumption.
Qed.

Lemma connect_success_frees_nothing o a w bev w' :
  socks5_proxy_connect o a w = Done (Some bev, w') -> freed w' = freed w.
Proof.
  intros H. apply socks5_proxy_connect_outcome in H
    as [(_ & Hr & _) | (b & attempt & _ & [(_ & _ & ->) | (Hr & _)] & Hf & _)];
    try discriminate.
  change (BuffereventSocketNew b :: attempt)
    with ([BuffereventSocketNew b] ++ attempt).
  rewrite !freed_app, Hf. cbn. now rewrite !app_nil_r.
Qed.

Lemma connect_not_underflow o a w :
  socks5_proxy_connect o a w <> Crash RingUnderflow.
Proof.
  unfold socks5_proxy_connect.
  destruct (socket_new_result o) as [bev|]; [|discriminate].
  unfold switch_type, io_bind, lift, debug, emit, io_ret, load.
  destruct (type a); try discriminate.
  - destruct (_ <=? _)%nat; [|discriminate].
    destruct (connect_result o <? 0); discriminate.
  - destruct (c_string (addr a)); [|discriminate].
    destruct (connect_result o <? 0); discriminate.
  - destruct (_ <=? _)%nat; [|discriminate].
    destruct (connect_result o <? 0); discriminate.
Qed.

(** X8. The connector keeps no bufferevent it does not return. When it
    returns one, that is the bufferevent it has just created: a connect
    attempt was started on it, it is not freed, and reading is enabled on
    it. When it returns NULL, either no bufferevent could be created and
    nothing is freed, or the one it created is freed, once, as its last
    call; an address type other than 01, 03, 04 is the only case in which
    it gives up without a connect attempt. *)
Theorem connect_keeps_only_what_it_returns o a w r w' :
  socks5_proxy_connect o a w = Done (r, w') ->
  match r with
  | Some bev =>
      socket_new_result o = Some bev /\
      created w' = created w ++ [bev] /\
      freed w' = freed w /\
      read_enabled bev w' = true /\
      length (connect_attempts w') = S (length (connect_attempts w))
  | None =>
      (socket_new_result o = None /\ created w' = created w /\ freed w' = freed w) \/
      (exists bev,
         socket_new_result o = Some bev /\
         created w' = created w ++ [bev] /\
         freed w' = freed w ++ [bev] /\
         (connect_attempts w' = connect_attempts w ->
          type a <> x01 /\ type a <> x03 /\ type a <> x04))
  end.
Proof.
  intros H. pose proof H as H0.
  apply socks5_proxy_connect_outcome in H
    as [(Hnew & -> & ->) |
        (bev & attempt & Hnew & [(-> & Hrc & ->) | (-> & ->)] & Hf & Hc & Hatt)].
  - left. rewrite created_app, freed_app. cbn. now rewrite !app_nil_r.
  - split; [exact Hnew|]. split; [|split; [|split]].
    + change (BuffereventSocketNew bev :: attempt)
        with ([BuffereventSocketNew bev] ++ attempt).
      rewrite !created_app, Hc. cbn. now rewrite !app_nil_r.
    + exact (connect_success_frees_nothing _ _ _ _ _ H0).
    + change [BuffereventSetcb bev; BuffereventEnable bev [EV_READ; EV_WRITE]]
        with ([BuffereventSetcb bev] ++ [BuffereventEnable bev [EV_READ; EV_WRITE]]).
      rewrite app_assoc. now apply read_enabled_app_enable.
    + destruct Hatt as [Hone | (_ & Hr & _)]; [|discriminate].
      change (BuffereventSocketNew bev :: attempt)
        with ([BuffereventSocketNew bev] ++ attempt).
      unfold connect_attempts in *. rewrite !filter_app, !length_app. cbn.
      rewrite Hone. lia.
  - right. exists bev. split; [exact Hnew|]. split; [|split].
    + change (BuffereventSocketNew bev :: attempt)
        with ([BuffereventSocketNew bev] ++ attempt).
      rewrite !created_app, Hc. cbn. now rewrite !app_nil_r.
    + change (BuffereventSocketNew bev :: attempt)
        with ([BuffereventSocketNew bev] ++ attempt).
      rewrite !freed_app, Hf. cbn. now rewrite !app_nil_r.
    + intros Heq. destruct Hatt as [Hone | (_ & _ & Hty)]; [|exact Hty].
      exfalso. apply (f_equal (@length call)) in Heq.
      change (BuffereventSocketNew bev :: attempt)
        with ([BuffereventSocketNew bev] ++ attempt) in Heq.
      unfold connect_attempts in *. rewrite !filter_app, !length_app in Heq.
      cbn in Heq. rewrite Hone in Heq. lia.
Qed.

Lemma connect_keeps_only_what_it_returns_witness :
  socks5_proxy_connect willing (after_tag 128 x01) []
  = Done (Some 9%nat,
          [BuffereventSocketNew 9%nat;
           Debug LOG_DEBUG "SOCKS5 connecting to IPv4: %s:%d";
           BuffereventSocketConnect 9%nat AF_INET [x00; x00; x00; x00] [x00; x00];
           BuffereventSetcb 9%nat;
           BuffereventEnable 9%nat [EV_READ; EV_WRITE]]) /\
  socks5_proxy_connect refusing (after_tag 128 x01) []
  = Done (None,
          [BuffereventSocketNew 9%nat;
           Debug LOG_DEBUG "SOCKS5 connecting to IPv4: %s:%d";
           BuffereventSocketConnect 9%nat AF_INET [x00; x00; x00; x00] [x00; x00];
           Debug LOG_ERR "Failed to connect SOCKS5 proxy (type %d)";
           BuffereventFree 9%nat]) /\
  socket_new_result willing = Some 9%nat.
Proof.
  assert (Hrun : socks5_proxy_connect willing (after_tag 128 x01) []
                 = Done (Some 9%nat,
                         [BuffereventSocketNew 9%nat;
                          Debug LOG_DEBUG "SOCKS5 connecting to IPv4: %s:%d";
                          BuffereventSocketConnect 9%nat AF_INET
                            [x00; x00; x00; x00] [x00; x00];
                          BuffereventSetcb 9%nat;
                          BuffereventEnable 9%nat [EV_READ; EV_WRITE]]))
    by reflexivity.
  split; [exact Hrun | split; [reflexivity|]].
  exact (proj1 (connect_keeps_only_what_it_returns willing (after_tag 128 x01) []
                  (Some 9%nat) _ Hrun)).
Defined.

(** * handle_ss5 *)

Lemma c_string_padded (name rest : bytes) :
  no_nul name -> c_string (name ++ x00 :: rest) = Some name.
Proof.
  intros Hname. induction Hname as [|b name Hb _ IH]; cbn.
  - reflexivity.
  - destruct (Byte.eqb b x00) eqn:E.
    + apply Byte.byte_dec_bl in E. contradiction.
    + now rewrite IH.
Qed.

(** The request branch of the legacy handler. *)
Lemma ss5_request sz o client rb len w :
  state client = SOCKS5_INIT -> 7 <= len ->
  handle_ss5 sz o client rb len w
  = match parse_socks5_addr sz rb len with
    | Crash f => Crash f
    | Done (ok, addr_len, a, rb') =>
        let w1 := w ++ [ss5_request_log] in
        let client1 := set_remote_addr client a in
        if negb ok then
          Done (0, client1, rb', w1 ++ [Debug LOG_ERR "Failed to parse SOCKS5 address"])
        else
          match socks5_proxy_connect o a w1 with
          | Crash f => Crash f
          | Done (None, w2) =>
              Done (0, set_local_proxy_bev client1 None, rb',
                    w2 ++ [Debug LOG_ERR "Failed to establish proxy connection"])
          | Done (Some bev, w2) =>
              Done (to_uint32 addr_len, set_local_proxy_bev client1 (Some bev), rb',
                    w2 ++ [ss5_established_log])
          end
    end.
Proof.
  intros Hst Hlen. unfold handle_ss5. rewrite Hst. cbn [state_eqb andb].
  rewrite (leb_true 7 len Hlen).
  cbn -[parse_socks5_addr socks5_proxy_connect to_uint32].
  unfold io_bind, lift.
  destruct (parse_socks5_addr sz rb len) as [[[[ok offset] a] rb']|f];
    [|reflexivity].
  destruct ok; cbn -[socks5_proxy_connect to_uint32]; [|reflexivity].
  unfold ss5_request_log.
  destruct (socks5_proxy_connect o a _) as [[[bev|] w2]|f];
    cbn -[to_uint32]; reflexivity.
Qed.

Lemma socks5_proxy_connect_domain o bev name post p w :
  socket_new_result o = Some bev -> 0 <= connect_result o ->
  no_nul name ->
  socks5_proxy_connect o (mk_socks5_addr (name ++ x00 :: post) p x03) w
  = Done (Some bev,
          w ++ [BuffereventSocketNew bev;
                Debug LOG_DEBUG "SOCKS5 connecting to domain: %s:%d";
                BuffereventSocketConnectHostname bev AF_INET name (ntohs p);
                BuffereventSetcb bev;
                BuffereventEnable bev [EV_READ; EV_WRITE]]).
Proof.
  intros Hnew Hrc Hname. unfold socks5_proxy_connect. rewrite Hnew.
  cbn [type addr port switch_type].
  rewrite (c_string_padded name post Hname).
  unfold io_bind, lift, debug, emit, io_ret.
  cbv beta iota. rewrite (ltb_false (connect_result o) 0 Hrc).
  cbv beta iota. rewrite <- !app_assoc. reflexivity.
Qed.

(** X9. A domain request through the legacy handler: in INIT, with the
    whole address in the ring buffer, a name without NUL that is shorter
    than the address field and at most 252 bytes long, the resolver is
    handed exactly the name of the wire and the port in host order; the
    handler returns the size of the address, leaves what follows it in
    the ring buffer, stores the new connection, and stays in INIT. *)
Theorem ss5_domain_request sz o client l name p rest len bev w :
  state client = SOCKS5_INIT ->
  length name = Byte.to_nat l -> length p = 2%nat -> no_nul name ->
  (Byte.to_nat l <= 252)%nat -> (Byte.to_nat l < sz)%nat ->
  7 <= len -> u8 l + 4 <= len ->
  socket_new_result o = Some bev -> 0 <= connect_result o ->
  let a := mk_socks5_addr (name ++ repeat x00 (sz - length name)) p x03 in
  let client' := set_local_proxy_bev (set_remote_addr client a) (Some bev) in
  handle_ss5 sz o client (x03 :: l :: (name ++ p) ++ rest) len w
  = Done (u8 l + 4, client', rest,
          w ++ [ss5_request_log;
                BuffereventSocketNew bev;
                Debug LOG_DEBUG "SOCKS5 connecting to domain: %s:%d";
                BuffereventSocketConnectHostname bev AF_INET name (ntohs p);
                BuffereventSetcb bev;
                BuffereventEnable bev [EV_READ; EV_WRITE];
                ss5_established_log]) /\
  state client' = SOCKS5_INIT.
Proof.
  intros Hst Hname Hp Hnul H252 Hsz H7 Hlen Hnew Hrc a client'.
  split; [|exact Hst]. subst client' a.
  rewrite ss5_request by assumption.
  rewrite parse_domain by (assumption || lia).
  cbn [negb]. cbv zeta.
  destruct (sz - length name)%nat as [|k] eqn:Hk; [lia|]. cbn [repeat].
  rewrite (socks5_proxy_connect_domain o bev) by assumption.
  pose proof (u8_range l) as Hl.
  unfold to_uint32. rewrite Z.mod_small by lia.
  rewrite <- !app_assoc. reflexivity.
Qed.

Lemma ss5_domain_request_witness :
  state (fresh_client SOCKS5_INIT) = SOCKS5_INIT /\
  no_nul [x61; x2e; x62] /\ 7 <= 12 /\ u8 x03 + 4 <= 12 /\
  exists client',
    handle_ss5 128 willing (fresh_client SOCKS5_INIT)
      (x03 :: x03 :: ([x61; x2e; x62] ++ [x01; xbb]) ++ [x16; x03; x01; x00; x2a]) 12 []
    = Done (u8 x03 + 4, client', [x16; x03; x01; x00; x2a],
            [] ++ [ss5_request_log;
                   BuffereventSocketNew 9%nat;
                   Debug LOG_DEBUG "SOCKS5 connecting to domain: %s:%d";
                   BuffereventSocketConnectHostname 9%nat AF_INET [x61; x2e; x62]
                     (ntohs [x01; xbb]);
                   BuffereventSetcb 9%nat;
                   BuffereventEnable 9%nat [EV_READ; EV_WRITE];
                   ss5_established_log]).
Proof.
  assert (Hnul : no_nul [x61; x2e; x62])
    by (repeat constructor; discriminate).
  split; [reflexivity | split; [exact Hnul | split; [lia | split; [cbn; lia|]]]].
  eexists.
  apply (ss5_domain_request 128 willing (fresh_client SOCKS5_INIT)
           x03 [x61; x2e; x62] [x01; xbb] [x16; x03; x01; x00; x2a] 12 9%nat []);
    try reflexivity; try exact Hnul; cbn; lia.
Defined.

(** X10. Where no branch of the legacy handler matches (any state but
    ESTABLISHED, and not INIT with 7 bytes or more) it returns 0 and does
    nothing else: no byte leaves the ring buffer, the client is as it
    was, and no call is made, not even to the log. *)
Theorem ss5_waits_silently sz o client rb len w :
  state client <> SOCKS5_ESTABLISHED ->
  ~ (state client = SOCKS5_INIT /\ 7 <= len) ->
  handle_ss5 sz o client rb len w = Done (0, client, rb, w).
Proof.
  intros He Hi. unfold handle_ss5.
  destruct (state client) eqn:Hst; try congruence; cbn [state_eqb andb];
    try reflexivity.
  rewrite leb_false; [reflexivity|].
  destruct (Z.lt_ge_cases len 7); [assumption|].
  exfalso. apply Hi. split; [reflexivity | lia].
Qed.

Lemma ss5_waits_silently_witness :
  state (connected_client SOCKS5_INIT) <> SOCKS5_ESTABLISHED /\
  handle_ss5 128 willing (connected_client SOCKS5_INIT) [x01; x5d; xb8] 3 []
  = Done (0, connected_client SOCKS5_INIT, [x01; x5d; xb8], []).
Proof.
  split; [discriminate|].
  apply (ss5_waits_silently 128 willing (connected_client SOCKS5_INIT)
           [x01; x5d; xb8] 3 []).
  - discriminate.
  - intros [_ H]. lia.
Defined.

(** X11. A request the legacy handler accepts: it returns the size of the
    address whatever follows it in the ring buffer (there is no assertion
    on [len] here), stays in INIT, and puts the new connection in
    [local_proxy_bev] in place of the one the client held, which is not
    released. *)
Theorem ss5_request_connects sz o client rb len w consumed a rb' bev w2 :
  state client = SOCKS5_INIT -> 7 <= len ->
  parse_socks5_addr sz rb len = Done (true, consumed, a, rb') ->
  socks5_proxy_connect o a (w ++ [ss5_request_log]) = Done (Some bev, w2) ->
  let client' := set_local_proxy_bev (set_remote_addr client a) (Some bev) in
  handle_ss5 sz o client rb len w
  = Done (consumed, client', rb', w2 ++ [ss5_established_log]) /\
  state client' = SOCKS5_INIT /\
  local_proxy_bev client' = Some bev /\
  freed (w2 ++ [ss5_established_log]) = freed w.
Proof.
  intros Hst Hlen Hparse Hconn client'.
  split; [|split; [exact Hst | split; [reflexivity|]]].
  - rewrite ss5_request by assumption.
    rewrite Hparse. cbn [negb]. cbv zeta. rewrite Hconn.
    apply parse_ok_inv in Hparse as (_ & _ & Hrange & _).
    unfold to_uint32. rewrite Z.mod_small by lia. reflexivity.
  - rewrite freed_app. cbn. rewrite app_nil_r.
    rewrite (connect_success_frees_nothing _ _ _ _ _ Hconn).
    rewrite freed_app. cbn. apply app_nil_r.
Qed.

Lemma ss5_request_connects_witness :
  state (connected_client SOCKS5_INIT) = SOCKS5_INIT /\ 7 <= 9 /\
  exists a w2,
    parse_socks5_addr 128 (ipv4_wire ++ [x47; x45]) 9
    = Done (true, 7, a, [x47; x45]) /\
    socks5_proxy_connect willing a ([] ++ [ss5_request_log]) = Done (Some 9%nat, w2) /\
    handle_ss5 128 willing (connected_client SOCKS5_INIT) (ipv4_wire ++ [x47; x45]) 9 []
    = Done (7, set_local_proxy_bev
                 (set_remote_addr (connected_client SOCKS5_INIT) a) (Some 9%nat),
            [x47; x45], w2 ++ [ss5_established_log]) /\
    freed (w2 ++ [ss5_established_log]) = freed [].
Proof.
  split; [reflexivity | split; [lia|]].
  eexists. eexists.
  assert (Hparse : parse_socks5_addr 128 (ipv4_wire ++ [x47; x45]) 9
                   = Done (true, 7,
                           mk_socks5_addr ([x5d; xb8; xd8; x22] ++ repeat x00 124)
                             [x00; x50] x01, [x47; x45])) by reflexivity.
  split; [exact Hparse | split; [vm_compute; reflexivity|]].
  pose proof (ss5_request_connects 128 willing (connected_client SOCKS5_INIT)
                (ipv4_wire ++ [x47; x45]) 9 [] 7 _ [x47; x45] 9%nat _
                eq_refl ltac:(lia) Hparse eq_refl) as (Hrun & _ & _ & Hfreed).
  split; [exact Hrun | exact Hfreed].
Defined.

(** X12. The legacy handler stays inside the ring buffer: when the ring
    buffer holds at least the [len] bytes it is told of, no pop of the
    handler or of the parser under it runs past the end. *)
Theorem ss5_never_pops_past_ring sz o client rb len w :
  len <= Z.of_nat (length rb) ->
  handle_ss5 sz o client rb len w <> Crash RingUnderflow.
Proof.
  intros Hlen. unfold handle_ss5.
  destruct (state_eqb (state client) SOCKS5_ESTABLISHED).
  - unfold io_bind, lift, tx_ring_buffer_write, rx_ring_buffer_pop.
    destruct (local_proxy_bev client); [|discriminate].
    replace (Z.to_nat len <=? length rb)%nat with true
      by (symmetry; apply Nat.leb_le; lia).
    discriminate.
  - destruct (state_eqb (state client) SOCKS5_INIT && (7 <=? len)) eqn:Hbr;
      [|discriminate].
    unfold io_bind, lift, debug, emit.
    pose proof (parse_not_underflow sz rb len Hlen) as Hparse.
    destruct (parse_socks5_addr sz rb len) as [[[[ok off] a] rb']|f];
      [|congruence].
    destruct ok; cbn [negb set_remote_addr remote_addr]; [|discriminate].
    pose proof (connect_not_underflow o a
                  (w ++ [Debug LOG_DEBUG
                           "Processing initial SOCKS5 connection request, len: %d"]))
      as Hconn.
    destruct (socks5_proxy_connect o a _) as [[[bev|] w2]|f];
      cbn; try discriminate. congruence.
Qed.

Lemma ss5_never_pops_past_ring_witness :
  7 <= Z.of_nat (length [x03; x06; x61; x62; x63; x00; x50]) /\
  handle_ss5 128 willing (fresh_client SOCKS5_INIT)
    [x03; x06; x61; x62; x63; x00; x50] 7 []
  <> Crash RingUnderflow.
Proof.
  split; [cbn; lia|].
  apply (ss5_never_pops_past_ring 128 willing (fresh_client SOCKS5_INIT)
           [x03; x06; x61; x62; x63; x00; x50] 7 []).
  cbn. lia.
Defined.

(** * More about handle_socks5 *)

Lemma parse_domain_ring_short sz l body len :
  2 <= len -> u8 l + 4 <= len ->
  (length body < Byte.to_nat l + 2)%nat ->
  parse_socks5_addr sz (x03 :: l :: body) len = Crash RingUnderflow.
Proof.
  intros H2 Hfit Hshort. unfold parse_socks5_addr.
  rewrite (ltb_true 0 len) by lia.
  change (repeat x00 scratch_size) with (x00 :: x00 :: repeat x00 254).
  remember (repeat x00 254) as pad.
  cbn -[u8 Byte.to_nat]. rewrite (ltb_false len 2) by lia.
  cbn -[u8 Byte.to_nat]. rewrite (ltb_false len (u8 l + 4)) by lia.
  unfold pop_into, rx_ring_buffer_pop.
  replace (Byte.to_nat l + 2 <=? length body)%nat with false
    by (symmetry; apply Nat.leb_gt; lia).
  reflexivity.
Qed.

(** X13. In HANDSHAKE the parser is told the [len] of before the triple
    was popped. A domain request that arrived up to 3 bytes short of its
    length byte (the ring buffer holds exactly the [len] bytes announced)
    therefore passes the length check, and the pop of the name and port
    asks the ring buffer for more than it holds. *)
Theorem handshake_short_domain_pops_past_ring sz o client l body len w :
  state client = SOCKS5_HANDSHAKE -> 10 <= len ->
  len = Z.of_nat (length (x05 :: x01 :: x00 :: x03 :: l :: body)) ->
  u8 l + 4 <= len < u8 l + 7 ->
  handle_socks5 sz o client (x05 :: x01 :: x00 :: x03 :: l :: body) len w
  = Crash RingUnderflow.
Proof.
  intros Hst H10 Hring [Hfit Hshort].
  rewrite handshake_request by assumption.
  rewrite parse_domain_ring_short; [reflexivity | lia | exact Hfit |].
  cbn [length] in Hring. unfold u8 in Hshort. lia.
Qed.

Lemma handshake_short_domain_pops_past_ring_witness :
  state (fresh_client SOCKS5_HANDSHAKE) = SOCKS5_HANDSHAKE /\
  10 = Z.of_nat (length [x05; x01; x00; x03; x06; x61; x62; x63; x00; x50]) /\
  u8 x06 + 4 <= 10 < u8 x06 + 7 /\
  handle_socks5 128 willing (fresh_client SOCKS5_HANDSHAKE)
    [x05; x01; x00; x03; x06; x61; x62; x63; x00; x50] 10 []
  = Crash RingUnderflow.
Proof.
  split; [reflexivity | split; [reflexivity | split; [cbn; lia|]]].
  apply (handshake_short_domain_pops_past_ring 128 willing
           (fresh_client SOCKS5_HANDSHAKE) x06 [x61; x62; x63; x00; x50] 10 []);
    [reflexivity | lia | reflexivity | cbn; lia].
Defined.

Lemma init_greeting_step sz o client rest len w :
  state client = SOCKS5_INIT -> 3 <= len ->
  handle_socks5 sz o client (x05 :: x01 :: x00 :: rest) len w
  = Done (3, set_state client SOCKS5_HANDSHAKE, rest,
          w ++ [greeting_log;
                TmuxStreamWrite (ctl_bev client) [x05; x00; x00] (stream_id client)]).
Proof.
  intros Hst Hlen. unfold handle_socks5. rewrite Hst. cbn [state_eqb andb].
  rewrite (leb_true 3 len Hlen). cbn.
  rewrite <- app_assoc. reflexivity.
Qed.

(** X14. The whole negotiation, for every IPv4 address and port: a client
    in INIT that receives the greeting and then, as a second arrival, the
    10-byte connection request ends in HANDSHAKE holding the new backend
    connection, with 3 and then 10 bytes reported and the ring buffer
    empty; the tunnel has been written to once, with [05 00 00] (no reply
    follows the request), one bufferevent has been created and none
    freed. *)
Theorem greeting_then_ipv4_request sz o client ip p bev w :
  state client = SOCKS5_INIT ->
  length ip = 4%nat -> length p = 2%nat -> (4 <= sz)%nat ->
  socket_new_result o = Some bev -> 0 <= connect_result o ->
  exists client' w',
    greet_then_request sz o client [x05; x01; x00]
      (connect_request (x01 :: ip ++ p)) w
    = Done (3, 10, client', [], w') /\
    state client' = SOCKS5_HANDSHAKE /\
    local_proxy_bev client' = Some bev /\
    tunnel_writes w' = tunnel_writes w ++ [[x05; x00; x00]] /\
    created w' = created w ++ [bev] /\
    freed w' = freed w.
Proof.
  intros Hst Hip Hp Hsz Hnew Hrc.
  unfold greet_then_request, io_bind.
  change (Z.of_nat (length [x05; x01; x00])) with 3.
  rewrite init_greeting_step by (assumption || lia).
  cbn [app]. unfold connect_request. cbn [app].
  replace (Z.of_nat (length (x05 :: x01 :: x00 :: x01 :: ip ++ p))) with 10
    by (cbn [length]; rewrite length_app; lia).
  rewrite handshake_request by (reflexivity || lia).
  rewrite <- (app_nil_r (ip ++ p)).
  rewrite parse_ipv4 by (assumption || lia).
  cbn [negb]. cbv zeta. rewrite Hip.
  rewrite (socks5_proxy_connect_ipv4 o bev) by assumption.
  cbn [Z.eqb Z.add Pos.eqb Pos.add Pos.succ].
  eexists. eexists. split; [reflexivity|].
  split; [reflexivity | split; [reflexivity|]].
  rewrite !tunnel_writes_app, !created_app, !freed_app. cbn.
  rewrite !app_nil_r. repeat split.
Qed.

Lemma greeting_then_ipv4_request_witness :
  state (fresh_client SOCKS5_INIT) = SOCKS5_INIT /\
  socket_new_result willing = Some 9%nat /\ 0 <= connect_result willing /\
  exists client' w',
    greet_then_request 128 willing (fresh_client SOCKS5_INIT) [x05; x01; x00]
      (connect_request ipv4_wire) []
    = Done (3, 10, client', [], w') /\
    tunnel_writes w' = tunnel_writes [] ++ [[x05; x00; x00]].
Proof.
  split; [reflexivity | split; [reflexivity | split; [cbn; lia|]]].
  destruct (greeting_then_ipv4_request 128 willing (fresh_client SOCKS5_INIT)
              [x5d; xb8; xd8; x22] [x00; x50] 9%nat [])
    as (client' & w' & Hrun & _ & _ & Htw & _);
    [reflexivity | reflexivity | reflexivity | lia | reflexivity | cbn; lia |].
  exists client', w'. split; [exact Hrun | exact Htw].
Defined.

(** * The two forwarding callbacks *)

Lemma handed_over_app (w1 w2 : world) :
  handed_over (w1 ++ w2) = handed_over w1 ++ handed_over w2.
Proof. unfold handed_over. apply flat_map_app. Qed.

(** The six ways [tcp_proxy_c2s_cb] returns, each with the calls it adds
    and the input buffer it leaves. *)
Lemma c2s_outcome o bev ctx src w :
  exists src' evs,
    tcp_proxy_c2s_cb o bev ctx src w = Done (src', w ++ evs) /\
    ((src' = src /\
      (ctx = None \/ exists client, ctx = Some client /\ ctl_bev client = None) /\
      evs = [Debug LOG_ERR "Invalid client or control connection"]) \/
     (src' = src /\ src = [] /\
      evs = [Debug LOG_DEBUG "No data to read from client"]) \/
     (src' = src /\ src <> [] /\ tcp_mux o = true /\ calloc_ok o = false /\
      evs = [Debug LOG_ERR "Failed to allocate memory for buffer"]) \/
     (exists client ctl,
        ctx = Some client /\ ctl_bev client = Some ctl /\
        src' = [] /\ src <> [] /\
        ((tcp_mux o = false /\ evs = [EvbufferAddBuffer (Some ctl) src]) \/
         (tcp_mux o = true /\
          Z.of_nat (length src) <= to_uint32 (tmux_written o) /\
          evs = [TmuxStreamWrite (Some ctl) src (stream_id client)]) \/
         (tcp_mux o = true /\
          to_uint32 (tmux_written o) < Z.of_nat (length src) /\
          evs = [TmuxStreamWrite (Some ctl) src (stream_id client);
                 partial_write_log;
                 BuffereventDisable bev [EV_READ]])))).
Proof.
  destruct ctx as [client|].
  2:{ exists src. eexists. split; [reflexivity|]. left. auto. }
  destruct (ctl_bev client) as [ctl|] eqn:Hctl.
  2:{ exists src. eexists. split; [unfold tcp_proxy_c2s_cb; rewrite Hctl; reflexivity|].
      left. split; [reflexivity|]. split; [|reflexivity].
      right. exists client. auto. }
  destruct src as [|b src].
  { exists []. eexists.
    split; [unfold tcp_proxy_c2s_cb; rewrite Hctl; reflexivity|].
    right. left. auto. }
  destruct (tcp_mux o) eqn:Hmux.
  2:{ exists []. eexists.
      split; [unfold tcp_proxy_c2s_cb; rewrite Hctl, Hmux; reflexivity|].
      right. right. right. exists client, ctl.
      repeat split; try assumption; try discriminate. left. auto. }
  destruct (calloc_ok o) eqn:Hcalloc.
  2:{ exists (b :: src). eexists.
      split; [unfold tcp_proxy_c2s_cb; rewrite Hctl, Hmux, Hcalloc; reflexivity|].
      right. right. left. repeat split; try assumption; discriminate. }
  assert (Hsrc : b :: src <> []) by discriminate.
  pose proof (c2s_mux_offer o bev client ctl (b :: src) w Hctl Hsrc Hmux Hcalloc)
    as Hrun.
  destruct (to_uint32 (tmux_written o) <? Z.of_nat (length (b :: src))) eqn:Hp;
    rewrite <- app_assoc in Hrun; exists []; eexists; (split; [exact Hrun|]);
    right; right; right; exists client, ctl;
    (split; [reflexivity | split; [assumption | split; [reflexivity|]]]);
    (split; [exact Hsrc|]).
  - right. right. apply Z.ltb_lt in Hp. repeat split; assumption.
  - right. left. apply Z.ltb_ge in Hp. repeat split; assumption.
Qed.


Lemma read_enabled_app bev w evs :
  read_enabled bev (w ++ evs)
  = fold_left
      (fun on c =>
         match c with
         | BuffereventEnable b fl =>
             if (b =? bev)%nat && existsb is_read fl then true else on
         | BuffereventDisable b fl =>
             if (b =? bev)%nat && existsb is_read fl then false else on
         | _ => on
         end)
      evs (read_enabled bev w).
Proof. unfold read_enabled. apply fold_left_app. Qed.

(** X16. [tcp_proxy_c2s_cb] changes the reading of one bufferevent only,
    its source, and only by turning it off after a partial acceptance in
    multiplexed mode: on every other return (invalid context, no data, no
    memory, direct mode, full acceptance) reading is as it was on every
    bufferevent. *)
Theorem c2s_touches_reading_only_on_partial_accept o bev ctx src w src' w' :
  tcp_proxy_c2s_cb o bev ctx src w = Done (src', w') ->
  (forall other, other <> bev -> read_enabled other w' = read_enabled other w) /\
  (read_enabled bev w' = read_enabled bev w \/
   (read_enabled bev w' = false /\ tcp_mux o = true /\
    to_uint32 (tmux_written o) < Z.of_nat (length src))).
Proof.
  intros H.
  destruct (c2s_outcome o bev ctx src w) as (src2 & evs & Hrun & Hcases).
  rewrite Hrun in H. injection H as _ <-.
  destruct Hcases as [(_ & _ & ->) | [(_ & _ & ->) | [(_ & _ & _ & _ & ->) |
    (client & ctl & _ & _ & _ & _ &
     [(_ & ->) | [(_ & _ & ->) | (Hmux & Hp & ->)]])]]];
    try (split; [intros other _ | left]; rewrite read_enabled_app; reflexivity).
  split.
  - intros other Hother. rewrite read_enabled_app. cbn.
    replace (bev =? other)%nat with false
      by (symmetry; apply Nat.eqb_neq; congruence).
    reflexivity.
  - right. split; [|split; assumption].
    rewrite read_enabled_app. cbn. now rewrite Nat.eqb_refl.
Qed.

Lemma c2s_touches_reading_only_on_partial_accept_witness :
  tcp_proxy_c2s_cb (mk_oracle (Some 9%nat) 0 5 true true) 4%nat
    (Some (connected_client SOCKS5_CONNECT)) [x68; x65; x6c; x6c; x6f]
    [BuffereventEnable 4%nat [EV_READ; EV_WRITE]]
  = Done ([], [BuffereventEnable 4%nat [EV_READ; EV_WRITE];
               TmuxStreamWrite (Some 1%nat) [x68; x65; x6c; x6c; x6f] 7]) /\
  read_enabled 4%nat
    [BuffereventEnable 4%nat [EV_READ; EV_WRITE];
     TmuxStreamWrite (Some 1%nat) [x68; x65; x6c; x6c; x6f] 7]
  = true.
Proof.
  assert (Hrun : tcp_proxy_c2s_cb (mk_oracle (Some 9%nat) 0 5 true true) 4%nat
                   (Some (connected_client SOCKS5_CONNECT)) [x68; x65; x6c; x6c; x6f]
                   [BuffereventEnable 4%nat [EV_READ; EV_WRITE]]
                 = Done ([], [BuffereventEnable 4%nat [EV_READ; EV_WRITE];
                              TmuxStreamWrite (Some 1%nat)
                                [x68; x65; x6c; x6c; x6f] 7]))
    by reflexivity.
  split; [exact Hrun|].
  destruct (proj2 (c2s_touches_reading_only_on_partial_accept _ _ _ _ _ _ _ Hrun))
    as [Hsame | (_ & _ & Hp)].
  - rewrite Hsame. reflexivity.
  - cbn in Hp. lia.
Defined.

(** The four ways [tcp_proxy_s2c_cb] returns. *)
Lemma s2c_outcome o bev ctx src w :
  exists src' evs,
    tcp_proxy_s2c_cb o bev ctx src w = Done (src', w ++ evs) /\
    ((src' = src /\
      (ctx = None \/ exists client, ctx = Some client /\ local_proxy_bev client = None) /\
      evs = [Debug LOG_ERR "Invalid client or local proxy connection"]) \/
     (src' = src /\ src = [] /\
      evs = [Debug LOG_ERR "No data to read from local service"]) \/
     (src' = src /\ src <> [] /\ tcp_mux o = true /\
      evs = [Debug LOG_ERR "impossible to reach here"]) \/
     (exists client local,
        ctx = Some client /\ local_proxy_bev client = Some local /\
        src' = [] /\ src <> [] /\ tcp_mux o = false /\
        evs = [EvbufferAddBuffer (Some local) src])).
Proof.
  destruct ctx as [client|].
  2:{ exists src. eexists. split; [reflexivity|]. left. auto. }
  destruct (local_proxy_bev client) as [local|] eqn:Hl.
  2:{ exists src. eexists. split; [unfold tcp_proxy_s2c_cb; rewrite Hl; reflexivity|].
      left. split; [reflexivity|]. split; [|reflexivity].
      right. exists client. auto. }
  destruct src as [|b src].
  { exists []. eexists.
    split; [unfold tcp_proxy_s2c_cb; rewrite Hl; reflexivity|].
    right. left. auto. }
  destruct (tcp_mux o) eqn:Hmux.
  - exists (b :: src). eexists.
    split; [unfold tcp_proxy_s2c_cb; rewrite Hl, Hmux; reflexivity|].
    right. right. left. repeat split; try assumption; discriminate.
  - exists []. eexists.
    split; [unfold tcp_proxy_s2c_cb; rewrite Hl, Hmux; reflexivity|].
    right. right. right. exists client, local.
    repeat split; try assumption; discriminate.
Qed.

(** X17. [tcp_proxy_s2c_cb] moves data in direct mode only: with a client
    that holds a backend connection, a non-empty input and multiplexing
    off, the whole input goes to the output of that connection and the
    input buffer is empty; in every other case, multiplexed mode among
    them, it logs an error and leaves the input buffer and every
    bufferevent as they were. *)
Theorem s2c_forwards_in_direct_mode_only o bev ctx src w :
  exists src' evs,
    tcp_proxy_s2c_cb o bev ctx src w = Done (src', w ++ evs) /\
    ((exists client local,
        ctx = Some client /\ local_proxy_bev client = Some local /\
        src <> [] /\ tcp_mux o = false /\
        src' = [] /\ evs = [EvbufferAddBuffer (Some local) src]) \/
     ((tcp_mux o = true \/ src = [] \/ ctx = None \/
       exists client, ctx = Some client /\ local_proxy_bev client = None) /\
      src' = src /\ handed_over evs = [] /\
      exists fmt, evs = [Debug LOG_ERR fmt])) /\
    (forall b, read_enabled b (w ++ evs) = read_enabled b w) /\
    freed evs = [].
Proof.
  destruct (s2c_outcome o bev ctx src w) as (src' & evs & Hrun & Hcases).
  exists src', evs. split; [exact Hrun|].
  destruct Hcases as [(-> & Hctx & ->) | [(-> & Hsrc & ->) | [(-> & _ & Hmux & ->) |
    (client & local & Hc & Hl & -> & Hsrc & Hmux & ->)]]].
  - split; [right | split; [intros b; rewrite read_enabled_app|]; reflexivity].
    split; [auto|]. repeat split. eexists. reflexivity.
  - split; [right | split; [intros b; rewrite read_enabled_app|]; reflexivity].
    split; [auto|]. repeat split. eexists. reflexivity.
  - split; [right | split; [intros b; rewrite read_enabled_app|]; reflexivity].
    split; [auto|]. repeat split. eexists. reflexivity.
  - split; [left | split; [intros b; rewrite read_enabled_app|]; reflexivity].
    exists client, local. repeat split; assumption.
Qed.

(** * tcp_redir.c: the relay callbacks *)

Lemma cb_arg_app bev w evs :
  cb_arg bev (w ++ evs)
  = fold_left (fun found c =>
                 match c with
                 | RedirSetcb b arg => if (b =? bev)%nat then Some arg else found
                 | _ => found
                 end) evs (cb_arg bev w).
Proof. unfold cb_arg. apply fold_left_app. Qed.

Lemma redir_freed_app (w1 w2 : redir_world) :
  redir_freed (w1 ++ w2) = redir_freed w1 ++ redir_freed w2.
Proof. unfold redir_freed. apply flat_map_app. Qed.

Lemma is_freed_app bev w1 w2 :
  is_freed bev (w1 ++ w2) = is_freed bev w1 || is_freed bev w2.
Proof. unfold is_freed. rewrite redir_freed_app. apply existsb_app. Qed.

Lemma neq_eqb_false (a b : nat) : a <> b -> (a =? b)%nat = false.
Proof. intros H. now apply Nat.eqb_neq. Qed.

Lemma uses_freed_from_app gone a b :
  uses_freed_from gone (a ++ b)
  = uses_freed_from gone a || uses_freed_from (rev (redir_freed a) ++ gone) b.
Proof.
  revert gone. induction a as [|c a IH]; intros gone.
  - reflexivity.
  - cbn [app uses_freed_from]. rewrite IH, orb_assoc. f_equal. f_equal.
    destruct c; cbn [redir_freed flat_map app]; try reflexivity.
    fold (redir_freed a). cbn [rev]. now rewrite <- app_assoc.
Qed.

(** What [event_cb] does with an event that carries EOF or ERROR: one log
    line, then both ends freed, each once. *)
Lemma event_cb_closes bev events arg w :
  Z.land events BEV_EVENT_EOF <> 0 \/ Z.land events BEV_EVENT_ERROR <> 0 ->
  exists level fmt,
    event_cb bev events arg w
    = w ++ [RedirDebug level fmt; RedirFree bev; RedirFree arg].
Proof.
  intros H. unfold event_cb.
  destruct (Z.land events BEV_EVENT_EOF =? 0) eqn:Eeof; cbn [negb].
  - destruct (Z.land events BEV_EVENT_ERROR =? 0) eqn:Eerr; cbn [negb].
    + apply Z.eqb_eq in Eeof, Eerr. destruct H; contradiction.
    + eexists. eexists. reflexivity.
  - eexists. eexists. reflexivity.
Qed.

Lemma accept_cb_registers trs bev_in fd w :
  bev_in <> bev_xfrps trs ->
  let w' := accept_cb (Some bev_in) fd trs w in
  cb_arg bev_in w' = Some (bev_xfrps trs) /\
  cb_arg (bev_xfrps trs) w' = Some bev_in /\
  (forall b, b <> bev_in -> b <> bev_xfrps trs -> cb_arg b w' = cb_arg b w) /\
  redir_freed w' = redir_freed w.
Proof.
  intros Hne w'. subst w'. unfold accept_cb.
  repeat split.
  - rewrite cb_arg_app. cbn.
    rewrite Nat.eqb_refl, (neq_eqb_false (bev_xfrps trs) bev_in) by congruence.
    reflexivity.
  - rewrite cb_arg_app. cbn. now rewrite Nat.eqb_refl.
  - intros b Hb1 Hb2. rewrite cb_arg_app. cbn.
    now rewrite !neq_eqb_false by congruence.
  - rewrite redir_freed_app. cbn. apply app_nil_r.
Qed.

(** X18. The upstream bufferevent is shared by every accepted connection
    and keeps one callback argument: after two connections have been
    accepted, what arrives from upstream is moved to the one accepted
    last, while what arrives on either connection is moved upstream. The
    first connection no longer receives anything. *)
Theorem redir_upstream_feeds_last_accepted trs b1 b2 fd1 fd2 w :
  b1 <> bev_xfrps trs -> b2 <> bev_xfrps trs -> b1 <> b2 ->
  is_freed (bev_xfrps trs) w = false -> is_freed b1 w = false ->
  is_freed b2 w = false ->
  let w' := accept_cb (Some b2) fd2 trs (accept_cb (Some b1) fd1 trs w) in
  deliver_read (bev_xfrps trs) w' = w' ++ [RedirAddBuffer b2 (bev_xfrps trs)] /\
  deliver_read b1 w' = w' ++ [RedirAddBuffer (bev_xfrps trs) b1] /\
  deliver_read b2 w' = w' ++ [RedirAddBuffer (bev_xfrps trs) b2].
Proof.
  intros H1 H2 H12 Hfx Hf1 Hf2 w'.
  pose proof (accept_cb_registers trs b1 fd1 w H1) as (A1 & _ & _ & F1).
  pose proof (accept_cb_registers trs b2 fd2 (accept_cb (Some b1) fd1 trs w) H2)
    as (B2 & Bx & Bo & F2).
  cbv zeta in *. fold w' in B2, Bx, Bo, F2.
  assert (Hfree : forall b, is_freed b w' = is_freed b w).
  { intros b. unfold is_freed. now rewrite F2, F1. }
  unfold deliver_read.
  rewrite Bx, B2, (Bo b1 H12 H1), A1, !Hfree, Hfx, Hf1, Hf2.
  repeat split.
Qed.

Lemma redir_upstream_feeds_last_accepted_witness :
  deliver_read 1%nat
    (accept_cb (Some 3%nat) 8 (mk_tcp_redir_service 1%nat)
       (accept_cb (Some 2%nat) 7 (mk_tcp_redir_service 1%nat) []))
  = accept_cb (Some 3%nat) 8 (mk_tcp_redir_service 1%nat)
      (accept_cb (Some 2%nat) 7 (mk_tcp_redir_service 1%nat) [])
    ++ [RedirAddBuffer 3%nat 1%nat].
Proof.
  apply (redir_upstream_feeds_last_accepted (mk_tcp_redir_service 1%nat)
           2%nat 3%nat 7 8 []); (discriminate || reflexivity).
Defined.

(** X19. [event_cb] frees the partner it was registered with, and for an
    accepted connection that is the shared upstream bufferevent, which
    the service keeps using: once a connection has ended with EOF or an
    error, the next [accept_cb] sets callbacks on and enables a
    bufferevent that has been freed. *)
Theorem redir_accept_after_close_uses_freed trs b1 fd1 events b2 fd2 w :
  b1 <> bev_xfrps trs -> is_freed b1 w = false ->
  Z.land events BEV_EVENT_EOF <> 0 \/ Z.land events BEV_EVENT_ERROR <> 0 ->
  let w1 := deliver_event b1 events (accept_cb (Some b1) fd1 trs w) in
  redir_freed w1 = redir_freed w ++ [b1; bev_xfrps trs] /\
  uses_freed (accept_cb (Some b2) fd2 trs w1) = true.
Proof.
  intros H1 Hf1 Hev w1.
  pose proof (accept_cb_registers trs b1 fd1 w H1) as (A1 & _ & _ & F1).
  cbv zeta in A1, F1.
  assert (Hw1 : exists level fmt,
             w1 = accept_cb (Some b1) fd1 trs w
                    ++ [RedirDebug level fmt; RedirFree b1;
                        RedirFree (bev_xfrps trs)]).
  { subst w1. unfold deliver_event. rewrite A1.
    unfold is_freed. rewrite F1. fold (is_freed b1 w). rewrite Hf1.
    now apply event_cb_closes. }
  destruct Hw1 as (level & fmt & Hw1).
  split.
  - rewrite Hw1, redir_freed_app, F1. reflexivity.
  - unfold uses_freed, accept_cb at 1. rewrite uses_freed_from_app.
    apply orb_true_iff. right.
    rewrite Hw1, redir_freed_app. cbn [redir_freed flat_map app].
    rewrite rev_app_distr. cbn -[Nat.eqb].
    rewrite Nat.eqb_refl. cbn. now rewrite !orb_true_r.
Qed.

Lemma redir_accept_after_close_uses_freed_witness :
  Z.land 0x11 BEV_EVENT_EOF <> 0 /\
  uses_freed
    (accept_cb (Some 3%nat) 8 (mk_tcp_redir_service 1%nat)
       (deliver_event 2%nat 0x11
          (accept_cb (Some 2%nat) 7 (mk_tcp_redir_service 1%nat) [])))
  = true.
Proof.
  split; [discriminate|].
  apply (redir_accept_after_close_uses_freed (mk_tcp_redir_service 1%nat)
           2%nat 7 0x11 3%nat 8 []);
    [discriminate | reflexivity | left; discriminate].
Defined.

(** X20. With two connections open, the end of each frees the shared
    upstream bufferevent: after both have ended with EOF or an error the
    upstream bufferevent has been freed twice, each connection once. *)
Theorem redir_two_closes_free_upstream_twice trs b1 b2 fd1 fd2 ev1 ev2 w :
  b1 <> bev_xfrps trs -> b2 <> bev_xfrps trs -> b1 <> b2 ->
  is_freed b1 w = false -> is_freed b2 w = false ->
  Z.land ev1 BEV_EVENT_EOF <> 0 \/ Z.land ev1 BEV_EVENT_ERROR <> 0 ->
  Z.land ev2 BEV_EVENT_EOF <> 0 \/ Z.land ev2 BEV_EVENT_ERROR <> 0 ->
  redir_freed
    (deliver_event b2 ev2
       (deliver_event b1 ev1
          (accept_cb (Some b2) fd2 trs (accept_cb (Some b1) fd1 trs w))))
  = redir_freed w ++ [b1; bev_xfrps trs; b2; bev_xfrps trs].
Proof.
  intros H1 H2 H12 Hf1 Hf2 He1 He2.
  pose proof (accept_cb_registers trs b1 fd1 w H1) as (A1 & _ & _ & F1).
  pose proof (accept_cb_registers trs b2 fd2 (accept_cb (Some b1) fd1 trs w) H2)
    as (B2 & _ & Bo & F2).
  cbv zeta in *.
  set (w' := accept_cb (Some b2) fd2 trs (accept_cb (Some b1) fd1 trs w)) in *.
  assert (Hstep1 : exists level fmt,
             deliver_event b1 ev1 w'
             = w' ++ [RedirDebug level fmt; RedirFree b1; RedirFree (bev_xfrps trs)]).
  { unfold deliver_event. rewrite (Bo b1 H12 H1), A1.
    unfold is_freed. rewrite F2, F1. fold (is_freed b1 w). rewrite Hf1.
    now apply event_cb_closes. }
  destruct Hstep1 as (lv1 & fmt1 & ->).
  assert (Hstep2 : exists level fmt,
             deliver_event b2 ev2
               (w' ++ [RedirDebug lv1 fmt1; RedirFree b1; RedirFree (bev_xfrps trs)])
             = (w' ++ [RedirDebug lv1 fmt1; RedirFree b1; RedirFree (bev_xfrps trs)])
                 ++ [RedirDebug level fmt; RedirFree b2; RedirFree (bev_xfrps trs)]).
  { unfold deliver_event. rewrite cb_arg_app. cbn [fold_left]. rewrite B2.
    rewrite is_freed_app. unfold is_freed at 1. rewrite F2, F1.
    fold (is_freed b2 w). rewrite Hf2. cbn -[Nat.eqb].
    rewrite !(neq_eqb_false b2) by congruence. cbn.
    now apply event_cb_closes. }
  destruct Hstep2 as (lv2 & fmt2 & ->).
  rewrite !redir_freed_app, F2, F1. cbn. now rewrite <- app_assoc.
Qed.

Lemma redir_two_closes_free_upstream_twice_witness :
  Z.land 0x11 BEV_EVENT_EOF <> 0 /\ Z.land 0x21 BEV_EVENT_ERROR <> 0 /\
  redir_freed
    (deliver_event 3%nat 0x21
       (deliver_event 2%nat 0x11
          (accept_cb (Some 3%nat) 8 (mk_tcp_redir_service 1%nat)
             (accept_cb (Some 2%nat) 7 (mk_tcp_redir_service 1%nat) []))))
  = redir_freed [] ++ [2%nat; 1%nat; 3%nat; 1%nat].
Proof.
  split; [discriminate | split; [discriminate|]].
  apply (redir_two_closes_free_upstream_twice (mk_tcp_redir_service 1%nat)
           2%nat 3%nat 7 8 0x11 0x21 []);
    try discriminate; try reflexivity; [left | right]; discriminate.
Defined.
